(** * api/weather.js: comfort scores, chart series and calm-period search

    A shallow embedding of the request handler of [api/weather.js] and the
    properties its specification states about it.

    Numbers.  JavaScript numbers are modelled exactly: epoch seconds, the
    time-zone offset, scores and wind-force classes are integers ([Z]);
    temperatures and wind speeds are rationals ([Q]), which contain every
    finite double and on which the comparisons of the source are exact.
    Rounding of double arithmetic, [NaN] and the range limit of [Date] are
    outside the model.

    Dates.  A [Date] is its time value in milliseconds.  The getters of the
    source ([getHours], [getMinutes], [setMinutes]) are the local ones; the
    offset of the host from UTC, [LocalTZA], is a parameter of the model
    (constant over the forecast horizon, [0] on a UTC host).

    Payload.  The parsed body may lack [current] and [hourly], as the bodies
    sent with an error status do; reading a property of the missing object
    throws, as in the source.  Where the records are present their fields
    are numbers.

    Effects.  The handler runs in a state and exception monad over the
    [World]: the requests made, the responses sent and the console.  The
    network, the process environment, the clock and the formatting of the
    time in America/Chicago are inputs. *)

From Stdlib Require Import ZArith QArith Qround List String Ascii Bool Lia.
From Stdlib Require Import DecimalString Sorted Lqa.
From Equations Require Import Equations.
Import ListNotations.

Local Open Scope string_scope.
Local Open Scope Z_scope.

(** ** JavaScript operators on numbers *)

Module JsNum.

(** [x < y], [x <= y], [x > y], [x >= y] on measurements. *)
Definition ltb (x y : Q) : bool := negb (Qle_bool y x).
Definition leb (x y : Q) : bool := Qle_bool x y.
Definition gtb (x y : Q) : bool := ltb y x.
Definition geb (x y : Q) : bool := leb y x.

(** [Math.round]: the nearest integer, a tie going up. *)
Definition Math_round (x : Q) : Z := Qfloor (x + (1 # 2)).

(** [Math.min] on two integers. *)
Definition Math_min (a b : Z) : Z := Z.min a b.

(** Number to string conversion of an integer: decimal digits, no padding. *)
Definition toString (n : Z) : string := NilZero.string_of_int (Z.to_int n).

End JsNum.

Declare Scope js_scope.
Delimit Scope js_scope with js.
Infix "<?" := JsNum.ltb (at level 70, no associativity) : js_scope.
Infix "<=?" := JsNum.leb (at level 70, no associativity) : js_scope.
Infix ">?" := JsNum.gtb (at level 70, no associativity) : js_scope.
Infix ">=?" := JsNum.geb (at level 70, no associativity) : js_scope.

(** ** Scoring functions (lines 21-48) *)

Definition getTempScore (temp : Q) : Z :=
  if ((temp >=? 75) && (temp <=? 85))%js then 5
  else if (((temp >=? 70) && (temp <? 75))
           || ((temp >? 85) && (temp <=? 90)))%js then 4
  else if (((temp >=? 65) && (temp <? 70))
           || ((temp >? 90) && (temp <=? 95)))%js then 3
  else if (((temp >=? 60) && (temp <? 65))
           || ((temp >? 95) && (temp <=? 100)))%js then 2
  else 1.

Definition getWindScore (windBFT : Z) : Z :=
  if windBFT <? 3 then 5
  else if windBFT =? 3 then 3
  else if windBFT =? 4 then 2
  else 1.

Definition getOverallScore (temp : Q) (windBFT : Z) : Z :=
  JsNum.Math_min (getTempScore temp) (getWindScore windBFT).

Definition convertMphToBft (mph : Q) : Z :=
  if (mph <? 1)%js then 0
  else if (mph <? 4)%js then 1
  else if (mph <? 8)%js then 2
  else if (mph <? 13)%js then 3
  else if (mph <? 18)%js then 4
  else if (mph <? 24)%js then 5
  else if (mph <? 31)%js then 6
  else if (mph <? 38)%js then 7
  else if (mph <? 46)%js then 8
  else JsNum.Math_round (mph / 5).

(** ** Dates (ECMAScript time values) *)

Module JsDate.

Definition msPerSecond : Z := 1000.
Definition msPerMinute : Z := 60000.
Definition msPerHour : Z := 3600000.
Definition msPerDay : Z := 86400000.

(** A [Date] object holds a time value: milliseconds since the epoch, UTC. *)
Record Date : Set := newDate { getTime : Z }.

Definition Day (t : Z) : Z := t / msPerDay.
Definition HourFromTime (t : Z) : Z := (t / msPerHour) mod 24.
Definition MinFromTime (t : Z) : Z := (t / msPerMinute) mod 60.
Definition SecFromTime (t : Z) : Z := (t / msPerSecond) mod 60.
Definition msFromTime (t : Z) : Z := t mod msPerSecond.

Definition MakeTime (hour min sec ms : Z) : Z :=
  hour * msPerHour + min * msPerMinute + sec * msPerSecond + ms.
Definition MakeDate (day time : Z) : Z := day * msPerDay + time.

Section Host.

(** Offset of the host's local time from UTC, in milliseconds. *)
Variable LocalTZA : Z.

Definition LocalTime (t : Z) : Z := t + LocalTZA.
Definition UTC (t : Z) : Z := t - LocalTZA.

Definition getHours (d : Date) : Z := HourFromTime (LocalTime (getTime d)).
Definition getMinutes (d : Date) : Z := MinFromTime (LocalTime (getTime d)).
Definition getSeconds (d : Date) : Z := SecFromTime (LocalTime (getTime d)).
Definition getMilliseconds (d : Date) : Z := msFromTime (LocalTime (getTime d)).

(** [d.setMinutes(min, sec, ms)]; the updated object is the result. *)
Definition setMinutes (d : Date) (min sec ms : Z) : Date :=
  let t := LocalTime (getTime d) in
  let date := MakeDate (Day t) (MakeTime (HourFromTime t) min sec ms) in
  newDate (UTC date).

End Host.

End JsDate.

Import JsDate.

(** ** The upstream payload *)

(** One weather record: [data.current] and every entry of [data.hourly]. *)
Record HourData : Set := mkHourData {
  dt : Z;
  feels_like : Q;
  wind_speed : Q
}.

(** The parsed body.  [current] and [hourly] are absent from the bodies the
    provider sends with an error status; where they are present their fields
    are numbers, as the provider's contract has them. *)
Record Data : Set := mkData {
  current : option HourData;
  hourly : option (list HourData);
  timezone_offset : Z
}.

(** ** Exceptions *)

Inductive Exn : Set :=
| TypeError (message : string)
| SyntaxError (message : string).

Inductive Outcome (A : Type) : Type :=
| Return (a : A)
| Throw (e : Exn).
Arguments Return {A} a.
Arguments Throw {A} e.

Definition obind {A B : Type} (c : Outcome A) (k : A -> Outcome B) : Outcome B :=
  match c with
  | Return a => k a
  | Throw e => Throw e
  end.

Declare Scope outcome_scope.
Delimit Scope outcome_scope with outcome.
Notation "'let!' x ':=' c 'in' k" := (obind c (fun x => k))
  (at level 10, x pattern, c at level 100, k at level 200) : outcome_scope.

(** Reading a property of [undefined] throws. *)
Definition member {A : Type} (name : string) (o : option A) : Outcome A :=
  match o with
  | Some a => Return a
  | None => Throw (TypeError ("Cannot read properties of undefined (reading '" ++ name ++ "')"))
  end.

(** [a.slice(start, end)] for indices that are not negative. *)
Definition slice {A : Type} (start end_ : nat) (a : list A) : list A :=
  firstn (end_ - start) (skipn start a).

(** ** The response payload *)

Module Out.

Record Current : Set := mkCurrent {
  feels_like : Z;
  wind_speed_mph : Q;
  wind_speed_bft : Z;
  overall_score : Z;
  wind_score : Z;
  temp_score : Z;
  updated_at : string
}.

(** A chart point is the array [[timestamp, score]]. *)
Definition Point : Set := (Z * Z)%type.

Record ChartData : Set := mkChartData {
  overall : list Point;
  wind : list Point;
  temp : list Point
}.

Record Output : Set := mkOutput {
  current : Current;
  chart_data : ChartData;
  calm_period : string
}.

End Out.

(** ** Processing of the payload (lines 50-164) *)

Section Process.

Variable LocalTZA : Z.

(** *** Chart data (lines 59-84) *)

Definition hoursToDisplay : nat := 3.

(** The body of the [forEach] callback: one push on each of the arrays. *)
Definition pushHour (tz : Z) (arrays : Out.ChartData) (hourData : HourData)
  : Out.ChartData :=
  let timestamp := (dt hourData + tz) * 1000 in
  let feelsLike := feels_like hourData in
  let windMph := wind_speed hourData in
  let bft := convertMphToBft windMph in
  let tempScore := getTempScore feelsLike in
  let windScore := getWindScore bft in
  let overallScore := getOverallScore feelsLike bft in
  Out.mkChartData
    (Out.overall arrays ++ [(timestamp, overallScore)])
    (Out.wind arrays ++ [(timestamp, windScore)])
    (Out.temp arrays ++ [(timestamp, tempScore)]).

Definition currentTimestamp (tz : Z) (cur : HourData) : Z :=
  let currentTime := newDate ((dt cur + tz) * 1000) in
  let currentTime := setMinutes LocalTZA currentTime 0 0 0 in
  getTime currentTime.

Definition buildChartData (tz : Z) (cur : HourData) (hours : list HourData)
  : Out.ChartData :=
  let currentBft := convertMphToBft (wind_speed cur) in
  let currentOverallScore := getOverallScore (feels_like cur) currentBft in
  let currentWindScore := getWindScore currentBft in
  let currentTempScore := getTempScore (feels_like cur) in
  let currentTimestamp := currentTimestamp tz cur in
  let arrays :=
    Out.mkChartData [(currentTimestamp, currentOverallScore)]
                    [(currentTimestamp, currentWindScore)]
                    [(currentTimestamp, currentTempScore)] in
  fold_left (pushHour tz) (slice 1 (hoursToDisplay + 1) hours) arrays.

(** *** Next calm period (lines 89-116) *)

(** The [for] loop with [n] iterations left and the loop variables [i],
    [calmCandidate] and [calmCount]; the result is [calmStart] at the end of
    the loop, [None] being [null]. *)
Fixpoint calmLoop (tz : Z) (hours : list HourData) (n i : nat)
    (calmCandidate : option HourData) (calmCount : Z) : Outcome (option Z) :=
  match n with
  | O => Return None
  | S n' =>
    (let! hourData := member "wind_speed" (nth_error hours i) in
     let bft := convertMphToBft (wind_speed hourData) in
     if bft <? 3 then
       let calmCandidate :=
         if calmCount =? 0 then Some hourData else calmCandidate in
       let calmCount := calmCount + 1 in
       if calmCount =? 8 then
         let! candidate := member "dt" calmCandidate in
         let candidateTime := newDate ((dt candidate + tz) * 1000) in
         let candidateHour := getHours LocalTZA candidateTime in
         if (candidateHour >=? 8) && (candidateHour <? 21)
         then Return (Some (dt candidate))
         else calmLoop tz hours n' (S i) None 0
       else calmLoop tz hours n' (S i) calmCandidate calmCount
     else calmLoop tz hours n' (S i) None 0)%outcome
  end.

Definition forecastLimit (hours : list HourData) : Z :=
  Z.min 36 (Z.of_nat (List.length hours)).

Definition findCalmStart (tz : Z) (hours : list HourData) : Outcome (option Z) :=
  calmLoop tz hours (Z.to_nat (forecastLimit hours)) 0 None 0.

(** *** Time formatting (lines 118-142) *)

Definition formatTime (date : Date) : string :=
  let hours := getHours LocalTZA date in
  let minutes := getMinutes LocalTZA date in
  let ampm := if hours >=? 12 then "pm" else "am" in
  let hours := Z.rem hours 12 in
  let hours := if hours =? 0 then 12 else hours in
  let minutesStr :=
    if minutes <? 10 then ("0" ++ JsNum.toString minutes)%string
    else JsNum.toString minutes in
  (JsNum.toString hours ++ ":" ++ minutesStr ++ ampm)%string.

Definition calmPeriodText (tz : Z) (calmStart : option Z) : string :=
  match calmStart with
  | None => "--"
  | Some calmStart =>
    let calmDate := newDate ((calmStart + tz) * 1000) in
    formatTime calmDate
  end.

(** *** The whole of the [try] block after the body is parsed *)

Definition process (data : Data) (updatedAt : string) : Outcome Out.Output :=
  (let! cur := member "feels_like" (current data) in
   let currentFeelsLike := feels_like cur in
   let currentWindMph := wind_speed cur in
   let currentBft := convertMphToBft currentWindMph in
   let currentOverallScore := getOverallScore currentFeelsLike currentBft in
   let currentWindScore := getWindScore currentBft in
   let currentTempScore := getTempScore currentFeelsLike in
   let tz := timezone_offset data in
   let! hours := member "slice" (hourly data) in
   let chart := buildChartData tz cur hours in
   let! calmStart := findCalmStart tz hours in
   let calmPeriodText := calmPeriodText tz calmStart in
   Return (Out.mkOutput
             (Out.mkCurrent (JsNum.Math_round currentFeelsLike) currentWindMph
                currentBft currentOverallScore currentWindScore
                currentTempScore updatedAt)
             chart
             calmPeriodText))%outcome.

End Process.

(** ** The handler and its environment (lines 3-19, 145, 166-171) *)

(** What [fetch] resolves to; [body] is [None] when the body is not JSON, in
    which case [response.json()] rejects. *)
Record FetchResponse : Set := mkFetchResponse { body : option Data }.

(** What the handler reads from outside: the process environment, the
    network ([None] when the request fails, so that [fetch] rejects) and the
    clock. *)
Record Env : Set := mkEnv {
  OPEN_WEATHER_MAP_API_KEY : option string;
  network : string -> option FetchResponse;
  now : Date
}.

Inductive Body : Set :=
| ErrorBody (error : string)
| Payload (output : Out.Output).

Record HttpResponse : Set := mkHttpResponse { status : Z; json : Body }.

(** What the handler does to the outside: requests made, responses sent
    through [res], errors logged on the console. *)
Record World : Set := mkWorld {
  requests : list string;
  sent : list HttpResponse;
  console : list (string * Exn)
}.

Definition M (A : Type) : Type := World -> Outcome A * World.

Definition ret {A : Type} (a : A) : M A := fun w => (Return a, w).

Definition bind {A B : Type} (c : M A) (k : A -> M B) : M B :=
  fun w =>
    match c w with
    | (Return a, w') => k a w'
    | (Throw e, w') => (Throw e, w')
    end.

Definition lift {A : Type} (c : Outcome A) : M A := fun w => (c, w).

(** [try { c } catch (error) { h }] *)
Definition tryCatch {A : Type} (c : M A) (h : Exn -> M A) : M A :=
  fun w =>
    match c w with
    | (Return a, w') => (Return a, w')
    | (Throw e, w') => h e w'
    end.

Declare Scope effect_scope.
Delimit Scope effect_scope with effect.
Notation "x <- c ;; k" := (bind c (fun x => k))
  (at level 61, c at next level, right associativity) : effect_scope.
Notation "c ;; k" := (bind c (fun _ => k))
  (at level 61, right associativity) : effect_scope.

Definition fetch (env : Env) (url : string) : M FetchResponse :=
  fun w =>
    let w' := mkWorld (requests w ++ [url]) (sent w) (console w) in
    match network env url with
    | Some response => (Return response, w')
    | None => (Throw (TypeError "fetch failed"), w')
    end.

Definition response_json (response : FetchResponse) : M Data :=
  lift match body response with
       | Some data => Return data
       | None => Throw (SyntaxError "Unexpected token in JSON")
       end.

Definition console_error (message : string) (error : Exn) : M unit :=
  fun w =>
    (Return tt, mkWorld (requests w) (sent w) (console w ++ [(message, error)])).

(** [res.status(code).json(body)] *)
Definition res_status_json (code : Z) (b : Body) : M unit :=
  fun w =>
    (Return tt,
     mkWorld (requests w) (sent w ++ [mkHttpResponse code b]) (console w)).

(** [!apiKey]: the variable is unset or empty. *)
Definition not_ (v : option string) : bool :=
  match v with
  | None => true
  | Some s => String.eqb s ""
  end.

(** A value of the environment inside a template literal. *)
Definition interpolate (v : option string) : string :=
  match v with
  | None => "undefined"
  | Some s => s
  end.

Section Handler.

Variable LocalTZA : Z.

(** [date.toLocaleTimeString('en-US', {timeZone: 'America/Chicago', ...})],
    which the host computes from its time-zone data. *)
Variable formatCentralTime : Date -> string.

Definition lat : string := "30.5773".
Definition lon : string := "-97.8803".

Definition url (apiKey : option string) : string :=
  ("https://api.openweathermap.org/data/3.0/onecall?lat=" ++ lat ++ "&lon="
   ++ lon ++ "&exclude=minutely,daily,alerts&units=imperial&appid="
   ++ interpolate apiKey)%string.

(** The [try] block. *)
Definition tryBlock (env : Env) (url : string) : M unit :=
  (response <- fetch env url ;;
   data <- response_json response ;;
   output <- lift (process LocalTZA data (formatCentralTime (now env))) ;;
   res_status_json 200 (Payload output))%effect.

(** The [catch] block. *)
Definition catchBlock (error : Exn) : M unit :=
  (console_error "Error fetching weather data:" error ;;
   res_status_json 500 (ErrorBody "Failed to fetch weather data"))%effect.

Definition handler (env : Env) : M unit :=
  let apiKey := OPEN_WEATHER_MAP_API_KEY env in
  if not_ apiKey then res_status_json 500 (ErrorBody "Missing API Key")
  else tryCatch (tryBlock env (url apiKey)) catchBlock.

End Handler.

(** ** Notions of the specification *)

(** An hour is calm when its wind-force class is below 3. *)
Definition calm (hourData : HourData) : bool :=
  convertMphToBft (wind_speed hourData) <? 3.

(** The local wall-clock hour of a record: the hour read off the date built
    from its epoch second shifted by the payload's offset. *)
Definition localHour (LocalTZA tz : Z) (hourData : HourData) : Z :=
  getHours LocalTZA (newDate ((dt hourData + tz) * 1000)).

(** The display window for the start of a calm period: 8am to 9pm. *)
Definition inWindow (LocalTZA tz : Z) (hourData : HourData) : bool :=
  let h := localHour LocalTZA tz hourData in (8 <=? h) && (h <? 21).

(** The next eight hours exist and are all calm. *)
Definition calmRun (hours : list HourData) : bool :=
  (8 <=? List.length hours)%nat && forallb calm (firstn 8 hours).

(** The search policy in the words of the specification: the first run of
    eight consecutive calm hours is tested against the window at its first
    hour; a run that fails the test is discarded as a whole and the search
    resumes behind it. *)
Equations? firstCalmWindow (LocalTZA tz : Z) (hours : list HourData)
  : option Z by wf (List.length hours) lt :=
  firstCalmWindow LocalTZA tz [] := None;
  firstCalmWindow LocalTZA tz (h :: rest) with calmRun (h :: rest) => {
    | false := firstCalmWindow LocalTZA tz rest;
    | true with inWindow LocalTZA tz h => {
      | true := Some (dt h);
      | false := firstCalmWindow LocalTZA tz (skipn 7 rest) } }.
Proof.
  all: try (simpl; lia).
  change (List.length (skipn 7 rest) < S (List.length rest))%nat.
  rewrite length_skipn. lia.
Qed.

(** The loop of the search over the list of the hours still to visit, with
    the same loop variables; [calmLoop] with [n] iterations left at index
    [i] is this function on [hours[i .. i+n)] (lemma [calmLoop_scan]). *)
Fixpoint scan (LocalTZA tz : Z) (hours : list HourData)
    (calmCandidate : option HourData) (calmCount : Z) : Outcome (option Z) :=
  match hours with
  | [] => Return None
  | hourData :: hours' =>
    if convertMphToBft (wind_speed hourData) <? 3 then
      let calmCandidate :=
        if calmCount =? 0 then Some hourData else calmCandidate in
      let calmCount := calmCount + 1 in
      if calmCount =? 8 then
        (let! candidate := member "dt" calmCandidate in
         if inWindow LocalTZA tz candidate
         then Return (Some (dt candidate))
         else scan LocalTZA tz hours' None 0)%outcome
      else scan LocalTZA tz hours' calmCandidate calmCount
    else scan LocalTZA tz hours' None 0
  end.

(** The three points that one forecast hour contributes to the chart. *)
Definition hourTimestamp (tz : Z) (hourData : HourData) : Z :=
  (dt hourData + tz) * 1000.

Definition overallPoint (tz : Z) (hourData : HourData) : Out.Point :=
  (hourTimestamp tz hourData,
   getOverallScore (feels_like hourData) (convertMphToBft (wind_speed hourData))).

Definition windPoint (tz : Z) (hourData : HourData) : Out.Point :=
  (hourTimestamp tz hourData,
   getWindScore (convertMphToBft (wind_speed hourData))).

Definition tempPoint (tz : Z) (hourData : HourData) : Out.Point :=
  (hourTimestamp tz hourData, getTempScore (feels_like hourData)).

(** The 12-hour format "H:MMam/pm" in the words of the specification: hour
    0 (and 12) is rendered as 12, the minutes are padded to two digits. *)
Definition hour12 (h : Z) : Z := if h mod 12 =? 0 then 12 else h mod 12.

Definition twoDigits (m : Z) : string :=
  (JsNum.toString (m / 10) ++ JsNum.toString (m mod 10))%string.

Definition format12h (h m : Z) : string :=
  (JsNum.toString (hour12 h) ++ ":" ++ twoDigits m
   ++ (if (h <? 12)%Z then "am" else "pm"))%string.

(** The two error responses. *)
Definition missingKey : HttpResponse :=
  mkHttpResponse 500 (ErrorBody "Missing API Key").

Definition fetchFailed : HttpResponse :=
  mkHttpResponse 500 (ErrorBody "Failed to fetch weather data").

(** The timestamps of a chart series. *)
Definition timestamps (series : list Out.Point) : list Z := map fst series.

(** Strictly ascending order. *)
Definition ascending (ts : list Z) : Prop := Sorted Z.lt ts.

(** The invariant of the payload in the data model of the specification:
    the hourly records are on the hour and in ascending order, and the
    first of them is the hour of the current record. *)
Record snapshotInvariant (cur : HourData) (hours : list HourData) : Prop := {
  hourly_on_the_hour : Forall (fun h => dt h mod 3600 = 0) hours;
  hourly_ascending : ascending (map dt hours);
  hourly_0_current :
    forall h0, nth_error hours 0 = Some h0 -> dt h0 <= dt cur < dt h0 + 3600
}.

(** ** Sample inputs *)

(** Hourly records one hour apart from [start], all feeling like [feels],
    with the given wind speeds. *)
Fixpoint hoursFrom (start : Z) (feels : Q) (winds : list Q) : list HourData :=
  match winds with
  | [] => []
  | w :: winds' =>
    mkHourData start feels w :: hoursFrom (start + 3600) feels winds'
  end.

(** 36 hours from midnight: indices 10 to 17 at 3 mph, the others at 20 mph. *)
Definition calmFrom10 : list HourData :=
  hoursFrom 0 80 (repeat 20%Q 10 ++ repeat 3%Q 8 ++ repeat 20%Q 18)%list.

(** 36 hours from 10pm: only the first eight are calm. *)
Definition calmFrom22 : list HourData :=
  hoursFrom (22 * 3600) 80 (repeat 3%Q 8 ++ repeat 20%Q 28)%list.

(** 36 hours from 7am: only the first nine are calm. *)
Definition calmFrom7 : list HourData :=
  hoursFrom (7 * 3600) 80 (repeat 3%Q 9 ++ repeat 20%Q 27)%list.

(** A body with a current record at 00:20:34 and [calmFrom10] as forecast,
    and what the handler makes of it. *)
Definition sampleData : Data :=
  mkData (Some (mkHourData 1234 72.5 9)) (Some calmFrom10) 0.

Definition sampleOutput : Out.Output :=
  Out.mkOutput
    (Out.mkCurrent 73 9 3 3 3 4 "3:07 PM")
    (Out.mkChartData
       [(0, 3); (3600000, 1); (7200000, 1); (10800000, 1)]
       [(0, 3); (3600000, 1); (7200000, 1); (10800000, 1)]
       [(0, 4); (3600000, 5); (7200000, 5); (10800000, 5)])
    "10:00am".

(** Environments: no key; a key and a network that fails; a key and a
    network that answers with [sampleData]. *)
Definition envNoKey : Env :=
  mkEnv None (fun _ => Some (mkFetchResponse (Some sampleData))) (newDate 0).

Definition envOffline : Env :=
  mkEnv (Some "k") (fun _ => None) (newDate 0).

Definition envOnline : Env :=
  mkEnv (Some "k") (fun _ => Some (mkFetchResponse (Some sampleData)))
        (newDate 0).

Definition emptyWorld : World := mkWorld [] [] [].

(** ** Clock times *)

(** The pairs of an hour of the day and a minute of the hour. *)
Definition clockTimes : list (Z * Z) :=
  list_prod (map Z.of_nat (seq 0 24)) (map Z.of_nat (seq 0 60)).

(** No string of the list occurs twice. *)
Fixpoint distinct (l : list string) : bool :=
  match l with
  | [] => true
  | s :: l' => negb (existsb (String.eqb s) l') && distinct l'
  end.

(** ** Further sample inputs *)

(** 24 calm hours from 10pm, then 12 windy ones. *)
Definition calmDay : list HourData := hoursFrom (22 * 3600) 80 (repeat 3%Q 24).

Definition windyRest : list HourData :=
  hoursFrom (46 * 3600) 80 (repeat 20%Q 12).

(** A forecast of three hours. *)
Definition shortData : Data :=
  mkData (Some (mkHourData 1234 74.6 3))
         (Some (hoursFrom 0 80 (repeat 3%Q 3))) 0.

Definition shortOutput : Out.Output :=
  Out.mkOutput
    (Out.mkCurrent 75 3 1 4 5 4 "3:07 PM")
    (Out.mkChartData
       [(0, 4); (3600000, 5); (7200000, 5)]
       [(0, 5); (3600000, 5); (7200000, 5)]
       [(0, 4); (3600000, 5); (7200000, 5)])
    "--".

(** * Properties *)

Local Open Scope list_scope.

(** ** The model on small inputs *)

Example Math_round_samples :
  JsNum.Math_round 2.5 = 3 /\ JsNum.Math_round (-2.5) = -2 /\
  JsNum.Math_round 72.4 = 72 /\ JsNum.Math_round (46 / 5) = 9.
Proof. repeat split. Qed.

Example toString_samples :
  JsNum.toString 0 = "0"%string /\ JsNum.toString 7 = "7"%string /\
  JsNum.toString 45 = "45"%string.
Proof. repeat split. Qed.

Example slice_sample : slice 1 4 [10; 11; 12; 13; 14; 15] = [11; 12; 13].
Proof. reflexivity. Qed.

Example slice_short : slice 1 4 [10; 11] = [11].
Proof. reflexivity. Qed.

(** 1700000000 is 22:13:20 UTC; six hours west of Greenwich it is 16:13:20. *)
Example getHours_samples :
  getHours 0 (newDate 1700000000000) = 22 /\
  getHours (-21600000) (newDate 1700000000000) = 16 /\
  getMinutes 0 (newDate 1700000000000) = 13 /\
  getTime (setMinutes 0 (newDate 1700000000000) 0 0 0) = 1699999200000.
Proof. repeat split. Qed.

Example formatTime_samples :
  formatTime 0 (newDate 0) = "12:00am"%string /\
  formatTime 0 (newDate (12 * 3600000 + 5 * 60000)) = "12:05pm"%string /\
  formatTime 0 (newDate (13 * 3600000 + 5 * 60000)) = "1:05pm"%string /\
  formatTime 0 (newDate (20 * 3600000 + 59 * 60000)) = "8:59pm"%string /\
  formatTime 0 (newDate (-60000)) = "11:59pm"%string.
Proof. repeat split. Qed.

(** ** Comparisons and rounding *)

Lemma leb_iff (x y : Q) : JsNum.leb x y = true <-> (x <= y)%Q.
Proof. apply Qle_bool_iff. Qed.

Lemma ltb_iff (x y : Q) : JsNum.ltb x y = true <-> (x < y)%Q.
Proof.
  unfold JsNum.ltb. rewrite negb_true_iff, <- not_true_iff_false, Qle_bool_iff.
  split; [apply Qnot_le_lt | apply Qlt_not_le].
Qed.

Lemma leb_reflect (x y : Q) : reflect (x <= y)%Q (JsNum.leb x y).
Proof. apply iff_reflect. symmetry. apply leb_iff. Qed.

Lemma ltb_reflect (x y : Q) : reflect (x < y)%Q (JsNum.ltb x y).
Proof. apply iff_reflect. symmetry. apply ltb_iff. Qed.

(** Case analysis on every comparison of measurements in the goal. *)
Ltac js_compare :=
  unfold JsNum.geb, JsNum.gtb;
  repeat (match goal with
          | |- context [JsNum.leb ?x ?y] => destruct (leb_reflect x y)
          | |- context [JsNum.ltb ?x ?y] => destruct (ltb_reflect x y)
          end;
          cbn [andb orb negb]; try lra).

(** [Math.round] picks the integer nearest to its argument, the upper one
    at a tie. *)
Lemma Math_round_nearest (x : Q) :
  (x - (1 # 2) < inject_Z (JsNum.Math_round x) <= x + (1 # 2))%Q.
Proof.
  unfold JsNum.Math_round.
  pose proof (Qfloor_le (x + (1 # 2))) as Hle.
  pose proof (Qlt_floor (x + (1 # 2))) as Hlt.
  rewrite inject_Z_plus in Hlt. change (inject_Z 1) with 1%Q in Hlt.
  split; [lra | exact Hle].
Qed.

Lemma Math_round_mono (x y : Q) :
  (x <= y)%Q -> JsNum.Math_round x <= JsNum.Math_round y.
Proof.
  intros H. unfold JsNum.Math_round. apply Qfloor_resp_le. lra.
Qed.

(** ** Wind-force classes *)

(** C3. A wind speed in [0,1) has class 0, in [1,4) class 1, in [4,8)
    class 2, in [8,13) class 3, in [13,18) class 4, in [18,24) class 5, in
    [24,31) class 6, in [31,38) class 7 and in [38,46) class 8; from 46 mph
    on the class is [Math.round(mph / 5)], which has no cap and is above 8. *)
Theorem convertMphToBft_classes (mph : Q) :
  ((0 <= mph < 1)%Q -> convertMphToBft mph = 0) /\
  ((1 <= mph < 4)%Q -> convertMphToBft mph = 1) /\
  ((4 <= mph < 8)%Q -> convertMphToBft mph = 2) /\
  ((8 <= mph < 13)%Q -> convertMphToBft mph = 3) /\
  ((13 <= mph < 18)%Q -> convertMphToBft mph = 4) /\
  ((18 <= mph < 24)%Q -> convertMphToBft mph = 5) /\
  ((24 <= mph < 31)%Q -> convertMphToBft mph = 6) /\
  ((31 <= mph < 38)%Q -> convertMphToBft mph = 7) /\
  ((38 <= mph < 46)%Q -> convertMphToBft mph = 8) /\
  ((46 <= mph)%Q ->
   convertMphToBft mph = JsNum.Math_round (mph / 5) /\
   8 < convertMphToBft mph).
Proof.
  assert (Hbig : (46 <= mph)%Q -> 8 < JsNum.Math_round (mph / 5)).
  { intros H.
    assert (Hm : JsNum.Math_round (46 / 5) <= JsNum.Math_round (mph / 5))
      by (apply Math_round_mono, Qmult_le_compat_r; [exact H | discriminate]).
    change (JsNum.Math_round (46 / 5)) with 9 in Hm. lia. }
  unfold convertMphToBft.
  repeat split; intros; js_compare;
    solve [reflexivity | lra | apply Hbig; assumption].
Qed.

(** ** Comfort scores *)

(** C4. The temperature score is 5 on [75,85], 4 on [70,75) and (85,90],
    3 on [65,70) and (90,95], 2 on [60,65) and (95,100], and 1 below 60 and
    above 100; it is always one of 1, 2, 3, 4, 5; and the five sample values
    of the specification are as stated. *)
Theorem getTempScore_bands :
  (forall t : Q,
     ((75 <= t <= 85)%Q -> getTempScore t = 5) /\
     ((70 <= t < 75 \/ 85 < t <= 90)%Q -> getTempScore t = 4) /\
     ((65 <= t < 70 \/ 90 < t <= 95)%Q -> getTempScore t = 3) /\
     ((60 <= t < 65 \/ 95 < t <= 100)%Q -> getTempScore t = 2) /\
     ((t < 60 \/ 100 < t)%Q -> getTempScore t = 1) /\
     In (getTempScore t) [1; 2; 3; 4; 5]) /\
  getTempScore 75 = 5 /\
  getTempScore 69.9 = 3 /\
  getTempScore 100.1 = 1 /\
  getTempScore 60 = 2 /\
  getTempScore 59.9 = 1.
Proof.
  split; [| repeat split; reflexivity].
  intros t. unfold getTempScore.
  repeat split; try intros [? | ?]; try intros [? ?]; js_compare;
    solve [reflexivity | lra | simpl; tauto].
Qed.

(** C5. The wind score is 5 below class 3, 3 at class 3, 2 at class 4 and 1
    above class 4; it is never 4. *)
Theorem getWindScore_steps (c : Z) :
  (c < 3 -> getWindScore c = 5) /\
  (c = 3 -> getWindScore c = 3) /\
  (c = 4 -> getWindScore c = 2) /\
  (c > 4 -> getWindScore c = 1) /\
  getWindScore c <> 4.
Proof.
  unfold getWindScore.
  destruct (Z.ltb_spec c 3), (Z.eqb_spec c 3), (Z.eqb_spec c 4);
    repeat split; intros; lia.
Qed.

Lemma getOverallScore_min (t : Q) (c : Z) :
  getOverallScore t c = Z.min (getTempScore t) (getWindScore c).
Proof. reflexivity. Qed.

(** ** Chart series *)

Lemma fold_pushHour (tz : Z) (hours : list HourData) (arrays : Out.ChartData) :
  fold_left (pushHour tz) hours arrays =
  Out.mkChartData
    (Out.overall arrays ++ map (overallPoint tz) hours)
    (Out.wind arrays ++ map (windPoint tz) hours)
    (Out.temp arrays ++ map (tempPoint tz) hours).
Proof.
  revert arrays. induction hours as [| h hours IH]; intros arrays; simpl.
  - rewrite !app_nil_r. destruct arrays; reflexivity.
  - rewrite IH. unfold pushHour at 1 2 3. simpl.
    rewrite <- !app_assoc. reflexivity.
Qed.

(** The arrays are the point of the current record followed by the points
    of [hourly.slice(1, 4)]. *)
Lemma buildChartData_points (LocalTZA tz : Z) (cur : HourData)
    (hours : list HourData) :
  let ts := currentTimestamp LocalTZA tz cur in
  let bft := convertMphToBft (wind_speed cur) in
  let forecast := slice 1 4 hours in
  buildChartData LocalTZA tz cur hours =
  Out.mkChartData
    ((ts, getOverallScore (feels_like cur) bft) :: map (overallPoint tz) forecast)
    ((ts, getWindScore bft) :: map (windPoint tz) forecast)
    ((ts, getTempScore (feels_like cur)) :: map (tempPoint tz) forecast).
Proof.
  unfold buildChartData. rewrite fold_pushHour. reflexivity.
Qed.

Lemma process_Return (LocalTZA : Z) (data : Data) (updatedAt : string)
    (output : Out.Output) :
  process LocalTZA data updatedAt = Return output ->
  exists cur hours calmStart,
    current data = Some cur /\
    hourly data = Some hours /\
    findCalmStart LocalTZA (timezone_offset data) hours = Return calmStart /\
    output =
    Out.mkOutput
      (Out.mkCurrent
         (JsNum.Math_round (feels_like cur)) (wind_speed cur)
         (convertMphToBft (wind_speed cur))
         (getOverallScore (feels_like cur) (convertMphToBft (wind_speed cur)))
         (getWindScore (convertMphToBft (wind_speed cur)))
         (getTempScore (feels_like cur)) updatedAt)
      (buildChartData LocalTZA (timezone_offset data) cur hours)
      (calmPeriodText LocalTZA (timezone_offset data) calmStart).
Proof.
  unfold process. intros H.
  destruct (current data) as [cur |]; [| discriminate].
  destruct (hourly data) as [hours |]; [| discriminate].
  cbn [member obind] in H.
  destruct (findCalmStart LocalTZA (timezone_offset data) hours)
    as [calmStart | e] eqn:Hfind; [| discriminate].
  cbn [obind] in H. injection H as <-.
  exists cur, hours, calmStart. repeat split; [exact Hfind].
Qed.

(** C6. The overall score is the minimum of the temperature score and the
    wind score, so it exceeds neither: for every temperature and class, for
    the current conditions of every payload, and at every point of the
    chart, where the three series have the same length and timestamps. *)
Theorem overall_score_is_min :
  (forall (t : Q) (c : Z),
     getOverallScore t c = Z.min (getTempScore t) (getWindScore c) /\
     getOverallScore t c <= getTempScore t /\
     getOverallScore t c <= getWindScore c) /\
  (forall (LocalTZA : Z) (data : Data) (updatedAt : string) (output : Out.Output),
     process LocalTZA data updatedAt = Return output ->
     let cur := Out.current output in
     let chart := Out.chart_data output in
     Out.overall_score cur = Z.min (Out.temp_score cur) (Out.wind_score cur) /\
     List.length (Out.wind chart) = List.length (Out.overall chart) /\
     List.length (Out.temp chart) = List.length (Out.overall chart) /\
     forall (i : nat) (o : Out.Point),
       nth_error (Out.overall chart) i = Some o ->
       exists w t : Out.Point,
         nth_error (Out.wind chart) i = Some w /\
         nth_error (Out.temp chart) i = Some t /\
         fst w = fst o /\ fst t = fst o /\
         snd o = Z.min (snd t) (snd w) /\
         snd o <= snd t /\ snd o <= snd w).
Proof.
  split.
  - intros t c. rewrite getOverallScore_min. lia.
  - intros LocalTZA data updatedAt output H.
    apply process_Return in H.
    destruct H as (cur & hours & calmStart & _ & _ & _ & ->).
    cbn [Out.current Out.chart_data Out.overall_score Out.temp_score
         Out.wind_score].
    rewrite buildChartData_points. cbn zeta. cbn [Out.overall Out.wind Out.temp].
    split; [reflexivity |].
    split; [simpl; rewrite !length_map; reflexivity |].
    split; [simpl; rewrite !length_map; reflexivity |].
    intros [| i] o Ho.
    + injection Ho as <-. eexists _, _.
      split; [reflexivity |]. split; [reflexivity |].
      cbn [fst snd]. rewrite getOverallScore_min. repeat split; lia.
    + cbn [nth_error] in Ho |- *. rewrite nth_error_map in Ho.
      rewrite !nth_error_map.
      destruct (nth_error (slice 1 4 hours) i) as [h |]; [| discriminate].
      injection Ho as <-. eexists _, _.
      split; [reflexivity |]. split; [reflexivity |].
      cbn [fst snd overallPoint windPoint tempPoint].
      rewrite getOverallScore_min. repeat split; lia.
Qed.

(** ** Dates *)

Lemma newDate_getTime (d : Date) : newDate (getTime d) = d.
Proof. destruct d. reflexivity. Qed.

Section DateFacts.

Variable LocalTZA : Z.

(** [setMinutes(0, 0, 0)] takes the local time down to the start of its
    hour. *)
Lemma setMinutes_0_getTime (d : Date) :
  getTime (setMinutes LocalTZA d 0 0 0) =
  getTime d - (getTime d + LocalTZA) mod msPerHour.
Proof.
  unfold setMinutes, LocalTime, UTC, MakeDate, MakeTime, Day, HourFromTime.
  cbn [getTime]. set (l := getTime d + LocalTZA).
  assert (Hday : l / msPerDay = l / msPerHour / 24).
  { rewrite Z.div_div by (unfold msPerHour; lia). reflexivity. }
  rewrite Hday.
  pose proof (Z.div_mod (l / msPerHour) 24 ltac:(lia)) as Hq.
  pose proof (Z.div_mod l msPerHour ltac:(unfold msPerHour; lia)) as Hl.
  unfold msPerDay, msPerMinute, msPerSecond, msPerHour in *. lia.
Qed.

Lemma start_of_hour_local (t : Z) :
  t - (t + LocalTZA) mod msPerHour + LocalTZA =
  msPerHour * ((t + LocalTZA) / msPerHour).
Proof.
  pose proof (Z.div_mod (t + LocalTZA) msPerHour
                ltac:(unfold msPerHour; lia)). lia.
Qed.

Lemma setMinutes_0_getMinutes (d : Date) :
  getMinutes LocalTZA (setMinutes LocalTZA d 0 0 0) = 0.
Proof.
  unfold getMinutes, LocalTime, MinFromTime.
  rewrite setMinutes_0_getTime, start_of_hour_local.
  replace (msPerHour * ((getTime d + LocalTZA) / msPerHour))
    with ((getTime d + LocalTZA) / msPerHour * 60 * msPerMinute)
    by (unfold msPerHour, msPerMinute; lia).
  rewrite Z.div_mul by (unfold msPerMinute; lia).
  apply Z.mod_mul. lia.
Qed.

Lemma setMinutes_0_getSeconds (d : Date) :
  getSeconds LocalTZA (setMinutes LocalTZA d 0 0 0) = 0.
Proof.
  unfold getSeconds, LocalTime, SecFromTime.
  rewrite setMinutes_0_getTime, start_of_hour_local.
  replace (msPerHour * ((getTime d + LocalTZA) / msPerHour))
    with ((getTime d + LocalTZA) / msPerHour * 3600 * msPerSecond)
    by (unfold msPerHour, msPerSecond; lia).
  rewrite Z.div_mul by (unfold msPerSecond; lia).
  replace ((getTime d + LocalTZA) / msPerHour * 3600)
    with ((getTime d + LocalTZA) / msPerHour * 60 * 60) by lia.
  apply Z.mod_mul. lia.
Qed.

Lemma setMinutes_0_getMilliseconds (d : Date) :
  getMilliseconds LocalTZA (setMinutes LocalTZA d 0 0 0) = 0.
Proof.
  unfold getMilliseconds, LocalTime, msFromTime.
  rewrite setMinutes_0_getTime, start_of_hour_local.
  replace (msPerHour * ((getTime d + LocalTZA) / msPerHour))
    with ((getTime d + LocalTZA) / msPerHour * 3600 * msPerSecond)
    by (unfold msPerHour, msPerSecond; lia).
  apply Z.mod_mul. unfold msPerSecond. lia.
Qed.

Lemma setMinutes_0_getHours (d : Date) :
  getHours LocalTZA (setMinutes LocalTZA d 0 0 0) = getHours LocalTZA d.
Proof.
  unfold getHours, LocalTime, HourFromTime.
  rewrite setMinutes_0_getTime, start_of_hour_local.
  rewrite Z.mul_comm, Z.div_mul by (unfold msPerHour; lia). reflexivity.
Qed.

Lemma setMinutes_0_bounds (d : Date) :
  getTime (setMinutes LocalTZA d 0 0 0) <= getTime d
  < getTime (setMinutes LocalTZA d 0 0 0) + msPerHour.
Proof.
  rewrite setMinutes_0_getTime.
  pose proof (Z.mod_pos_bound (getTime d + LocalTZA) msPerHour
                ltac:(unfold msPerHour; lia)). lia.
Qed.

(** On a UTC host the start of the hour is a multiple of an hour. *)
Lemma setMinutes_0_UTC (d : Date) :
  LocalTZA = 0 -> getTime (setMinutes LocalTZA d 0 0 0) mod msPerHour = 0.
Proof.
  intros H0. rewrite setMinutes_0_getTime, H0, Z.add_0_r.
  rewrite Zminus_mod_idemp_r, Z.sub_diag. reflexivity.
Qed.

(** The getters stay in their ranges. *)
Lemma getHours_range (d : Date) : 0 <= getHours LocalTZA d < 24.
Proof. unfold getHours, HourFromTime. apply Z.mod_pos_bound. lia. Qed.

Lemma getMinutes_range (d : Date) : 0 <= getMinutes LocalTZA d < 60.
Proof. unfold getMinutes, MinFromTime. apply Z.mod_pos_bound. lia. Qed.

End DateFacts.

(** On a UTC host the getters read the hour and the minute of the day off
    the epoch second itself. *)
Lemma getHours_UTC (seconds : Z) :
  getHours 0 (newDate (seconds * 1000)) = (seconds / 3600) mod 24.
Proof.
  unfold getHours, LocalTime, HourFromTime. cbn [getTime].
  rewrite Z.add_0_r.
  replace msPerHour with (1000 * 3600) by reflexivity.
  rewrite <- Z.div_div, Z.div_mul by lia. reflexivity.
Qed.

Lemma getMinutes_UTC (seconds : Z) :
  getMinutes 0 (newDate (seconds * 1000)) = (seconds / 60) mod 60.
Proof.
  unfold getMinutes, LocalTime, MinFromTime. cbn [getTime].
  rewrite Z.add_0_r.
  replace msPerMinute with (1000 * 60) by reflexivity.
  rewrite <- Z.div_div, Z.div_mul by lia. reflexivity.
Qed.

(** On a UTC host the local hour of a record is the hour of the day of its
    shifted epoch second. *)
Lemma localHour_UTC (tz : Z) (hourData : HourData) :
  localHour 0 tz hourData = ((dt hourData + tz) / 3600) mod 24.
Proof. apply getHours_UTC. Qed.

(** ** Shape of the chart series *)

Lemma slice_length {A : Type} (start end_ : nat) (a : list A) :
  List.length (slice start end_ a) =
  Nat.min (end_ - start) (List.length a - start).
Proof. unfold slice. rewrite length_firstn, length_skipn. reflexivity. Qed.

Lemma slice_nth_error {A : Type} (start end_ : nat) (a : list A) (k : nat) :
  (k < end_ - start)%nat ->
  nth_error (slice start end_ a) k = nth_error a (start + k).
Proof.
  intros Hk. unfold slice.
  rewrite nth_error_firstn.
  destruct (Nat.ltb_spec k (end_ - start)) as [_ | Hge]; [| lia].
  apply nth_error_skipn.
Qed.

Lemma hourTimestamp_lt (tz : Z) (a b : HourData) :
  dt a < dt b -> hourTimestamp tz a < hourTimestamp tz b.
Proof. unfold hourTimestamp. lia. Qed.

Lemma ascending_hourTimestamp (tz : Z) (hours : list HourData) :
  ascending (map dt hours) -> ascending (map (hourTimestamp tz) hours).
Proof.
  unfold ascending. induction hours as [| a hours IH]; intros H; simpl.
  - constructor.
  - inversion H as [| ? ? Hs Hhd]; subst. constructor; [auto |].
    destruct hours as [| b hours]; simpl in *; constructor.
    inversion Hhd; subst. now apply hourTimestamp_lt.
Qed.

Lemma ascending_lower_head (x y : Z) (l : list Z) :
  x <= y -> ascending (y :: l) -> ascending (x :: l).
Proof.
  unfold ascending. intros Hxy H. inversion H as [| ? ? Hs Hhd]; subst.
  constructor; [assumption |].
  destruct l as [| z l]; constructor. inversion Hhd; subst. lia.
Qed.

Lemma ascending_firstn (n : nat) (l : list Z) :
  ascending l -> ascending (firstn n l).
Proof.
  unfold ascending. revert l. induction n as [| n IH]; intros l H.
  - constructor.
  - destruct l as [| x l]; [constructor |].
    inversion H as [| ? ? Hs Hhd]; subst. cbn [firstn].
    constructor; [auto |].
    destruct n as [| n], l as [| y l]; cbn [firstn]; constructor.
    now inversion Hhd.
Qed.

(** Under the invariant of the data model the records that are charted
    have strictly ascending [dt]. *)
Lemma snapshotInvariant_charted (cur : HourData) (hours : list HourData) :
  snapshotInvariant cur hours -> ascending (map dt (cur :: slice 1 4 hours)).
Proof.
  intros [Hhour Hasc H0]. unfold ascending in *.
  destruct hours as [| h0 rest]; [repeat constructor |].
  change (slice 1 4 (h0 :: rest)) with (firstn 3 rest).
  cbn [map] in *. inversion Hasc as [| ? ? Hs Hhd]; subst.
  constructor.
  - rewrite <- firstn_map. now apply ascending_firstn.
  - destruct rest as [| h1 rest]; [constructor |].
    cbn [firstn map]. constructor.
    specialize (H0 h0 eq_refl).
    inversion Hhd as [| ? ? Hlt]; subst.
    inversion Hhour as [| ? ? Hm0 Hrest]; subst.
    inversion Hrest as [| ? ? Hm1 _]; subst.
    pose proof (Z.div_mod (dt h0) 3600 ltac:(lia)).
    pose proof (Z.div_mod (dt h1) 3600 ltac:(lia)).
    nia.
Qed.

Lemma currentTimestamp_floor (LocalTZA tz : Z) (cur : HourData) :
  currentTimestamp LocalTZA tz cur =
  hourTimestamp tz cur - (hourTimestamp tz cur + LocalTZA) mod msPerHour.
Proof.
  unfold currentTimestamp. rewrite setMinutes_0_getTime. reflexivity.
Qed.

(** The three series carry the same timestamps. *)
Lemma chart_timestamps (LocalTZA tz : Z) (cur : HourData)
    (hours : list HourData) (series : list Out.Point) :
  let chart := buildChartData LocalTZA tz cur hours in
  In series [Out.overall chart; Out.wind chart; Out.temp chart] ->
  timestamps series =
  currentTimestamp LocalTZA tz cur :: map (hourTimestamp tz) (slice 1 4 hours).
Proof.
  cbn zeta. rewrite buildChartData_points. cbn zeta.
  cbn [Out.overall Out.wind Out.temp In].
  intros [<- | [<- | [<- | []]]]; unfold timestamps; cbn [map fst];
    rewrite map_map; reflexivity.
Qed.

(** C2. Each of the three series starts with the point of the current
    record, whose timestamp is [(dt + timezone_offset) * 1000] taken down to
    the start of its hour (minutes, seconds and milliseconds are zero),
    followed by one point for each of [hourly[1]], [hourly[2]], [hourly[3]]
    that exists, with timestamp [(dt + timezone_offset) * 1000] as it is;
    [hourly[0]] contributes nothing.  A series has
    [1 + min(3, hourly.length - 1)] points, hence 4 when three forecast hours
    follow index 0, and its timestamps ascend strictly when the [dt] of the
    current record and of the charted hours do, as they do under the
    invariant of the data model. *)
Theorem chart_series_shape (LocalTZA tz : Z) (cur : HourData)
    (hours : list HourData) (series : list Out.Point) :
  let chart := buildChartData LocalTZA tz cur hours in
  let first := currentTimestamp LocalTZA tz cur in
  In series [Out.overall chart; Out.wind chart; Out.temp chart] ->
  List.length series = (1 + Nat.min 3 (List.length hours - 1))%nat /\
  ((4 <= List.length hours)%nat -> List.length series = 4%nat) /\
  nth_error (timestamps series) 0 = Some first /\
  (forall (k : nat) (hourData : HourData),
     (1 <= k <= 3)%nat -> nth_error hours k = Some hourData ->
     nth_error (timestamps series) k = Some ((dt hourData + tz) * 1000)) /\
  (first = (dt cur + tz) * 1000 - ((dt cur + tz) * 1000 + LocalTZA) mod 3600000 /\
   first <= (dt cur + tz) * 1000 < first + 3600000 /\
   getMinutes LocalTZA (newDate first) = 0 /\
   getSeconds LocalTZA (newDate first) = 0 /\
   getMilliseconds LocalTZA (newDate first) = 0) /\
  (ascending (map dt (cur :: slice 1 4 hours)) ->
   ascending (timestamps series)) /\
  (snapshotInvariant cur hours -> ascending (timestamps series)).
Proof.
  intros chart first Hin.
  pose proof (chart_timestamps LocalTZA tz cur hours series Hin) as Hts.
  fold first in Hts.
  assert (Hlen : List.length series =
                 (1 + Nat.min 3 (List.length hours - 1))%nat).
  { pose proof (f_equal (@List.length Z) Hts) as Hl.
    unfold timestamps in Hl. cbn [List.length] in Hl.
    rewrite !length_map, slice_length in Hl. exact Hl. }
  split; [exact Hlen |].
  split; [intros H4; rewrite Hlen; lia |].
  split; [rewrite Hts; reflexivity |].
  split.
  { intros k hourData Hk Hnth. rewrite Hts.
    destruct k as [| k]; [lia |]. cbn [nth_error].
    rewrite nth_error_map, slice_nth_error by (simpl; lia).
    cbn [Nat.add]. rewrite Hnth. reflexivity. }
  split.
  { subst first. unfold currentTimestamp. rewrite newDate_getTime.
    rewrite setMinutes_0_getMinutes, setMinutes_0_getSeconds,
      setMinutes_0_getMilliseconds.
    pose proof (setMinutes_0_bounds LocalTZA (newDate ((dt cur + tz) * 1000)))
      as Hb.
    rewrite setMinutes_0_getTime in *. cbn [getTime] in *.
    change msPerHour with 3600000 in *. repeat split; lia. }
  assert (Hstrict : ascending (map dt (cur :: slice 1 4 hours)) ->
                    ascending (timestamps series)).
  { intros Hasc. rewrite Hts.
    apply ascending_lower_head with (y := hourTimestamp tz cur).
    - subst first. rewrite currentTimestamp_floor.
      pose proof (Z.mod_pos_bound (hourTimestamp tz cur + LocalTZA) msPerHour
                    ltac:(unfold msPerHour; lia)). lia.
    - apply (ascending_hourTimestamp tz (cur :: slice 1 4 hours)).
      exact Hasc. }
  split; [exact Hstrict |].
  intros Hinv. apply Hstrict, snapshotInvariant_charted, Hinv.
Qed.

(** ** The calm-period search *)

Lemma skipn_nth_error {A : Type} (l : list A) (i : nat) (x : A) :
  nth_error l i = Some x -> skipn i l = x :: skipn (S i) l.
Proof.
  revert i. induction l as [| a l IH]; intros [| i] H; try discriminate.
  - injection H as ->. reflexivity.
  - cbn [nth_error] in H. change (skipn i l = x :: skipn (S i) l). auto.
Qed.

Lemma skipn_app_exact {A : Type} (l rest : list A) (n : nat) :
  List.length l = n -> skipn n (l ++ rest)%list = rest.
Proof.
  intros <-. rewrite skipn_app, skipn_all, Nat.sub_diag. reflexivity.
Qed.

Section CalmSearch.

Variables LocalTZA tz : Z.

Local Open Scope list_scope.


Lemma inWindow_iff (hourData : HourData) :
  inWindow LocalTZA tz hourData = true <->
  8 <= localHour LocalTZA tz hourData < 21.
Proof. unfold inWindow. cbn zeta. lia. Qed.

(** The indexed loop visits [hours[i]], ..., [hours[i+n-1]] in turn and
    reads no entry that does not exist. *)
Lemma calmLoop_scan (hours : list HourData) (n i : nat)
    (calmCandidate : option HourData) (calmCount : Z) :
  (i + n <= List.length hours)%nat ->
  calmLoop LocalTZA tz hours n i calmCandidate calmCount =
  scan LocalTZA tz (firstn n (skipn i hours)) calmCandidate calmCount.
Proof.
  revert i calmCandidate calmCount.
  induction n as [| n IH]; intros i calmCandidate calmCount Hlen.
  - reflexivity.
  - destruct (nth_error hours i) as [hourData |] eqn:Hnth.
    2:{ apply nth_error_None in Hnth. lia. }
    cbn [calmLoop]. rewrite Hnth, (skipn_nth_error _ _ _ Hnth).
    cbn [member obind firstn scan].
    rewrite !IH by lia.
    destruct (convertMphToBft (wind_speed hourData) <? 3); [| reflexivity].
    destruct (calmCount + 1 =? 8); [| reflexivity].
    destruct (if calmCount =? 0 then Some hourData else calmCandidate);
      [| reflexivity].
    cbn [member obind]. unfold inWindow, localHour.
    cbn zeta. rewrite Z.geb_leb. reflexivity.
Qed.

(** *** The search policy, unfolded *)

Lemma firstCalmWindow_cons (h : HourData) (rest : list HourData) :
  firstCalmWindow LocalTZA tz (h :: rest) =
  if calmRun (h :: rest)
  then if inWindow LocalTZA tz h then Some (dt h)
       else firstCalmWindow LocalTZA tz (skipn 7 rest)
  else firstCalmWindow LocalTZA tz rest.
Proof.
  simp firstCalmWindow.
  destruct (calmRun (h :: rest)); simpl;
    [destruct (inWindow LocalTZA tz h) |]; reflexivity.
Qed.

Lemma calmRun_short (l : list HourData) :
  (List.length l < 8)%nat -> calmRun l = false.
Proof.
  intros H. unfold calmRun.
  destruct (Nat.leb_spec 8 (List.length l)); [lia | reflexivity].
Qed.

Lemma firstCalmWindow_short (l : list HourData) :
  (List.length l < 8)%nat -> firstCalmWindow LocalTZA tz l = None.
Proof.
  induction l as [| h l IH]; intros H.
  - reflexivity.
  - rewrite firstCalmWindow_cons, calmRun_short by exact H.
    apply IH. simpl in H. lia.
Qed.

(** An hour that is not calm breaks every run that reaches it. *)
Lemma calmRun_broken (pre rest : list HourData) (x : HourData) :
  (List.length pre < 8)%nat -> calm x = false ->
  calmRun (pre ++ x :: rest) = false.
Proof.
  intros Hlen Hx. unfold calmRun. apply andb_false_iff. right.
  rewrite firstn_app, forallb_app.
  replace (8 - List.length pre)%nat with (S (7 - List.length pre)) by lia.
  cbn [firstn forallb]. rewrite Hx. apply andb_false_r.
Qed.

Lemma firstCalmWindow_broken (pre rest : list HourData) (x : HourData) :
  (List.length pre < 8)%nat -> calm x = false ->
  firstCalmWindow LocalTZA tz (pre ++ x :: rest) =
  firstCalmWindow LocalTZA tz rest.
Proof.
  intros Hlen Hx. induction pre as [| a pre IH].
  - cbn [app]. rewrite firstCalmWindow_cons.
    pose proof (calmRun_broken [] rest x ltac:(simpl; lia) Hx) as Hrun.
    cbn [app] in Hrun. rewrite Hrun. reflexivity.
  - pose proof (calmRun_broken (a :: pre) rest x Hlen Hx) as Hrun.
    cbn [app] in Hrun |- *. rewrite firstCalmWindow_cons, Hrun.
    apply IH. simpl in Hlen. lia.
Qed.

Lemma calmRun_full (pre rest : list HourData) :
  List.length pre = 8%nat -> forallb calm pre = true ->
  calmRun (pre ++ rest) = true.
Proof.
  intros Hlen Hcalm. unfold calmRun. apply andb_true_iff. split.
  - apply Nat.leb_le. rewrite length_app. lia.
  - rewrite firstn_app, Hlen, Nat.sub_diag, firstn_O, app_nil_r.
    rewrite <- Hlen, firstn_all. exact Hcalm.
Qed.

(** *** The loop follows the policy *)

(** With no run in progress the loop computes the policy on the hours still
    to visit; with a run [c :: pre] of fewer than eight calm hours in
    progress it computes the policy on the run followed by these hours. *)
Lemma scan_firstCalmWindow (rest : list HourData) :
  (forall calmCandidate,
     scan LocalTZA tz rest calmCandidate 0 =
     Return (firstCalmWindow LocalTZA tz rest)) /\
  (forall c pre,
     forallb calm (c :: pre) = true ->
     (List.length (c :: pre) < 8)%nat ->
     scan LocalTZA tz rest (Some c) (Z.of_nat (List.length (c :: pre))) =
     Return (firstCalmWindow LocalTZA tz ((c :: pre) ++ rest))).
Proof.
  induction rest as [| x rest [IH0 IHrun]].
  - split; [reflexivity |]. intros c pre _ Hlen.
    rewrite app_nil_r, firstCalmWindow_short by exact Hlen. reflexivity.
  - split.
    + intros calmCandidate. cbn [scan]. fold (calm x).
      destruct (calm x) eqn:Hx.
      * pose proof (IHrun x [] ltac:(simpl; rewrite Hx; reflexivity)
                        ltac:(simpl; lia)) as Hrun.
        change (Z.of_nat (List.length [x])) with 1 in Hrun.
        cbn [app] in Hrun.
        change (0 =? 0) with true. change (0 + 1) with 1.
        change (1 =? 8) with false. cbv iota. exact Hrun.
      * pose proof (firstCalmWindow_broken [] rest x ltac:(simpl; lia) Hx)
          as Hskip.
        cbn [app] in Hskip. rewrite IH0, Hskip. reflexivity.
    + intros c pre Hcalm Hlen. cbn [scan]. fold (calm x).
      destruct (calm x) eqn:Hx.
      * destruct (Z.eqb_spec (Z.of_nat (List.length (c :: pre))) 0) as [H0 | _];
          [simpl in H0; lia |].
        destruct (Z.eqb_spec (Z.of_nat (List.length (c :: pre)) + 1) 8)
          as [H8 | H8].
        -- cbn [member obind app]. rewrite firstCalmWindow_cons.
           change (c :: pre ++ x :: rest) with ((c :: pre) ++ x :: rest).
           replace ((c :: pre) ++ x :: rest)
             with (((c :: pre) ++ [x]) ++ rest)
             by (rewrite <- app_assoc; reflexivity).
           rewrite calmRun_full
             by (rewrite ?length_app, ?forallb_app, ?Hcalm; simpl in *;
                 rewrite ?Hx; lia || reflexivity).
           destruct (inWindow LocalTZA tz c); [reflexivity |].
           rewrite IH0.
           replace (skipn 7 (pre ++ x :: rest)) with rest; [reflexivity |].
           replace (pre ++ x :: rest) with ((pre ++ [x]) ++ rest)
             by (rewrite <- app_assoc; reflexivity).
           symmetry. apply skipn_app_exact.
           rewrite length_app. simpl in *. lia.
        -- replace (Z.of_nat (List.length (c :: pre)) + 1)
             with (Z.of_nat (List.length (c :: pre ++ [x])))
             by (simpl List.length; rewrite length_app; simpl; lia).
           rewrite IHrun.
           ++ cbn [app]. rewrite <- app_assoc. reflexivity.
           ++ change (c :: pre ++ [x]) with ((c :: pre) ++ [x]).
              rewrite forallb_app, Hcalm. simpl. rewrite Hx. reflexivity.
           ++ simpl List.length in *. rewrite length_app. simpl. lia.
      * rewrite IH0, (firstCalmWindow_broken (c :: pre) rest x Hlen Hx).
        reflexivity.
Qed.

(** *** What the policy reports *)

(** A reported start is the first hour of eight calm hours within the list
    and lies in the window. *)
Lemma firstCalmWindow_sound (l : list HourData) (start : Z) :
  firstCalmWindow LocalTZA tz l = Some start ->
  exists (i : nat) (first : HourData),
    nth_error l i = Some first /\ dt first = start /\
    calmRun (skipn i l) = true /\ inWindow LocalTZA tz first = true.
Proof.
  remember (List.length l) as n eqn:Hn.
  revert l Hn. induction n as [n IH] using lt_wf_ind. intros l Hn.
  destruct l as [| h rest]; [discriminate |].
  rewrite firstCalmWindow_cons.
  destruct (calmRun (h :: rest)) eqn:Hrun.
  - destruct (inWindow LocalTZA tz h) eqn:Hwin.
    + intros [= <-]. exists 0%nat, h. auto.
    + intros H.
      apply (IH (List.length (skipn 7 rest))) in H;
        [| rewrite length_skipn; subst n; simpl; lia | reflexivity].
      destruct H as (i & first & Hnth & Hdt & Hr & Hw).
      exists (8 + i)%nat, first.
      rewrite nth_error_skipn in Hnth. rewrite skipn_skipn in Hr.
      replace (i + 7)%nat with (7 + i)%nat in Hr by lia. auto.
  - intros H.
    apply (IH (List.length rest)) in H; [| subst n; simpl; lia | reflexivity].
    destruct H as (i & first & Hnth & Hdt & Hr & Hw).
    exists (S i), first. auto.
Qed.

(** The leftmost run of eight calm hours decides: its first hour is reported
    when it lies in the window; otherwise the eight hours are dropped and
    the search goes on behind them. *)
Lemma firstCalmWindow_first_run (l : list HourData) (i : nat)
    (first : HourData) :
  (forall j, (j < i)%nat -> calmRun (skipn j l) = false) ->
  calmRun (skipn i l) = true ->
  nth_error l i = Some first ->
  firstCalmWindow LocalTZA tz l =
  if inWindow LocalTZA tz first then Some (dt first)
  else firstCalmWindow LocalTZA tz (skipn (i + 8) l).
Proof.
  revert l. induction i as [| i IH]; intros l Hbefore Hrun Hnth.
  - destruct l as [| h rest]; [discriminate |].
    injection Hnth as ->. cbn [skipn] in Hrun.
    rewrite firstCalmWindow_cons, Hrun. reflexivity.
  - destruct l as [| h rest]; [discriminate |].
    rewrite firstCalmWindow_cons.
    rewrite (Hbefore 0%nat ltac:(lia) : calmRun (h :: rest) = false).
    apply IH; [| exact Hrun | exact Hnth].
    intros j Hj. apply (Hbefore (S j)). lia.
Qed.

(** *** The search of the handler *)

Lemma firstn_forecastLimit (hours : list HourData) :
  firstn (Z.to_nat (forecastLimit hours)) hours = firstn 36 hours.
Proof.
  unfold forecastLimit.
  destruct (Z.le_ge_cases 36 (Z.of_nat (List.length hours))) as [H | H].
  - rewrite Z.min_l by exact H. reflexivity.
  - rewrite Z.min_r, Nat2Z.id by exact H.
    rewrite firstn_all, firstn_all2 by lia. reflexivity.
Qed.

Lemma length_horizon (hours : list HourData) :
  List.length (firstn 36 hours) = Z.to_nat (forecastLimit hours).
Proof. rewrite length_firstn. unfold forecastLimit. lia. Qed.

Lemma findCalmStart_firstCalmWindow (hours : list HourData) :
  findCalmStart LocalTZA tz hours =
  Return (firstCalmWindow LocalTZA tz (firstn 36 hours)).
Proof.
  unfold findCalmStart.
  rewrite calmLoop_scan by (unfold forecastLimit; lia).
  cbn [skipn]. rewrite firstn_forecastLimit.
  apply scan_firstCalmWindow.
Qed.

End CalmSearch.

(** C1. The search reads the first [min(36, hourly.length)] entries and
    nothing else, and always completes.  It follows the policy of the
    specification: a reported start is the [dt] of the first of eight
    consecutive calm entries of that horizon and its local hour lies in
    [8, 21), so that it is never 22; the leftmost run of eight calm entries
    is reported when its first hour lies in the window and is otherwise
    discarded as a whole, the search resuming behind its eighth entry; and
    when the horizon is exhausted the result is [null].  The local hour is
    read off the date of the shifted epoch second; on a UTC host it is the
    hour of the day of [dt + timezone_offset]. *)
Theorem findCalmStart_policy (LocalTZA tz : Z) (hours : list HourData) :
  let horizon := firstn 36 hours in
  List.length horizon = Z.to_nat (Z.min 36 (Z.of_nat (List.length hours))) /\
  findCalmStart LocalTZA tz hours =
  Return (firstCalmWindow LocalTZA tz horizon) /\
  (forall start : Z,
     findCalmStart LocalTZA tz hours = Return (Some start) ->
     exists (i : nat) (first : HourData),
       nth_error horizon i = Some first /\ dt first = start /\
       calmRun (skipn i horizon) = true /\
       8 <= localHour LocalTZA tz first < 21 /\
       localHour LocalTZA tz first <> 22) /\
  (forall (i : nat) (first : HourData),
     (forall j, (j < i)%nat -> calmRun (skipn j horizon) = false) ->
     calmRun (skipn i horizon) = true ->
     nth_error horizon i = Some first ->
     findCalmStart LocalTZA tz hours =
     if inWindow LocalTZA tz first then Return (Some (dt first))
     else Return (firstCalmWindow LocalTZA tz (skipn (i + 8) horizon))) /\
  ((forall i : nat, calmRun (skipn i horizon) = false) ->
   findCalmStart LocalTZA tz hours = Return None) /\
  (LocalTZA = 0 ->
   forall hourData : HourData,
     localHour LocalTZA tz hourData = ((dt hourData + tz) / 3600) mod 24).
Proof.
  intros horizon.
  pose proof (findCalmStart_firstCalmWindow LocalTZA tz hours) as Hfind.
  fold horizon in Hfind.
  split; [apply length_horizon |].
  split; [exact Hfind |].
  split; [| split; [| split]].
  - intros start H. rewrite Hfind in H. injection H as H.
    apply firstCalmWindow_sound in H.
    destruct H as (i & first & Hnth & Hdt & Hrun & Hwin).
    apply inWindow_iff in Hwin.
    exists i, first. repeat split; [assumption .. | lia | lia | lia].
  - intros i first Hbefore Hrun Hnth. rewrite Hfind.
    rewrite (firstCalmWindow_first_run LocalTZA tz horizon i first
               Hbefore Hrun Hnth).
    destruct (inWindow LocalTZA tz first); reflexivity.
  - intros Hnone. rewrite Hfind.
    destruct (firstCalmWindow LocalTZA tz horizon) as [start |] eqn:H;
      [| reflexivity].
    apply firstCalmWindow_sound in H.
    destruct H as (i & first & _ & _ & Hrun & _).
    rewrite Hnone in Hrun. discriminate.
  - intros -> hourData. apply localHour_UTC.
Qed.

(** C10. The search starts at [hourly[0]], which the chart leaves out: when
    [hourly[0]], ..., [hourly[7]] are calm and the local hour of [hourly[0]]
    lies in [8, 21), the start reported is [hourly[0].dt]; the chart series
    do not depend on [hourly[0]]. *)
Theorem findCalmStart_from_index_0 (LocalTZA tz : Z) (first : HourData)
    (rest : list HourData) :
  (forall (cur other : HourData),
     buildChartData LocalTZA tz cur (first :: rest) =
     buildChartData LocalTZA tz cur (other :: rest)) /\
  ((8 <= List.length (first :: rest))%nat ->
   forallb calm (firstn 8 (first :: rest)) = true ->
   8 <= localHour LocalTZA tz first < 21 ->
   findCalmStart LocalTZA tz (first :: rest) = Return (Some (dt first))).
Proof.
  split.
  - intros cur other. rewrite !buildChartData_points. reflexivity.
  - intros Hlen Hcalm Hwin.
    rewrite findCalmStart_firstCalmWindow.
    change (firstn 36 (first :: rest)) with (first :: firstn 35 rest).
    rewrite firstCalmWindow_cons.
    assert (Hrun : calmRun (first :: firstn 35 rest) = true).
    { unfold calmRun. apply andb_true_iff. split.
      - apply Nat.leb_le. cbn [List.length] in *. rewrite length_firstn. lia.
      - change (first :: firstn 35 rest) with (firstn 36 (first :: rest)).
        rewrite firstn_firstn. exact Hcalm. }
    rewrite Hrun. apply inWindow_iff in Hwin. rewrite Hwin. reflexivity.
Qed.

(** ** The calm-period text *)

Lemma minutes_twoDigits (m : Z) :
  0 <= m < 60 ->
  (if m <? 10 then ("0" ++ JsNum.toString m)%string else JsNum.toString m) =
  twoDigits m.
Proof.
  intros Hm. rewrite <- (Z2Nat.id m) by lia.
  assert (Hn : (Z.to_nat m < 60)%nat) by lia.
  generalize dependent (Z.to_nat m). clear Hm. intros n Hn.
  do 60 (destruct n as [| n]; [reflexivity |]). lia.
Qed.

Lemma formatTime_format12h (LocalTZA : Z) (d : Date) :
  formatTime LocalTZA d =
  format12h (getHours LocalTZA d) (getMinutes LocalTZA d).
Proof.
  unfold formatTime, format12h, hour12.
  pose proof (getHours_range LocalTZA d) as Hh.
  rewrite (minutes_twoDigits _ (getMinutes_range LocalTZA d)).
  rewrite Z.rem_mod_nonneg by lia.
  rewrite Z.geb_leb.
  destruct (Z.leb_spec 12 (getHours LocalTZA d)),
    (Z.ltb_spec (getHours LocalTZA d) 12); try lia; reflexivity.
Qed.

Lemma hour12_range (h : Z) : 1 <= hour12 h <= 12.
Proof.
  unfold hour12. pose proof (Z.mod_pos_bound h 12 ltac:(lia)).
  destruct (Z.eqb_spec (h mod 12) 0); lia.
Qed.

(** A formatted time starts with a digit, so it is never the placeholder. *)
Lemma format12h_not_placeholder (h m : Z) : format12h h m <> "--".
Proof.
  unfold format12h. pose proof (hour12_range h) as Hr.
  rewrite <- (Z2Nat.id (hour12 h)) by lia.
  assert (Hn : (1 <= Z.to_nat (hour12 h) <= 12)%nat) by lia.
  generalize dependent (Z.to_nat (hour12 h)). clear Hr. intros n Hn.
  destruct n as [| n]; [lia |].
  do 12 (destruct n as [| n]; [discriminate |]). lia.
Qed.

(** C7. The field [calm_period] is "--" exactly when the search over the
    first [min(36, hourly.length)] hours comes back with [null]; otherwise
    it is the 12-hour rendering "H:MMam/pm" (hour 0 as 12, minutes on two
    digits) of the date built from the reported start shifted by
    [timezone_offset]; on a UTC host these are the hour and the minute of
    the day of [start + timezone_offset]. *)
Theorem calm_period_text (LocalTZA : Z) (data : Data) (updatedAt : string)
    (output : Out.Output) :
  process LocalTZA data updatedAt = Return output ->
  exists (hours : list HourData) (calmStart : option Z),
    hourly data = Some hours /\
    findCalmStart LocalTZA (timezone_offset data) hours = Return calmStart /\
    calmStart =
    firstCalmWindow LocalTZA (timezone_offset data) (firstn 36 hours) /\
    (Out.calm_period output = "--" <-> calmStart = None) /\
    (forall start : Z,
       calmStart = Some start ->
       let calmDate := newDate ((start + timezone_offset data) * 1000) in
       Out.calm_period output = formatTime LocalTZA calmDate /\
       Out.calm_period output =
       format12h (getHours LocalTZA calmDate) (getMinutes LocalTZA calmDate) /\
       (LocalTZA = 0 ->
        Out.calm_period output =
        format12h (((start + timezone_offset data) / 3600) mod 24)
                  (((start + timezone_offset data) / 60) mod 60))).
Proof.
  intros H. apply process_Return in H.
  destruct H as (cur & hours & calmStart & _ & Hhours & Hfind & ->).
  exists hours, calmStart. cbn [Out.calm_period].
  split; [exact Hhours |]. split; [exact Hfind |].
  split.
  { rewrite findCalmStart_firstCalmWindow in Hfind. now injection Hfind. }
  split.
  - destruct calmStart as [start |]; cbn [calmPeriodText].
    + rewrite formatTime_format12h.
      split; [intros E; now apply format12h_not_placeholder in E | discriminate].
    + split; reflexivity.
  - intros start ->. cbn [calmPeriodText].
    split; [reflexivity |]. split; [apply formatTime_format12h |].
    intros ->. rewrite formatTime_format12h, getHours_UTC, getMinutes_UTC.
    reflexivity.
Qed.

(** ** The handler *)

(** The search never throws, so processing fails exactly when [current] or
    [hourly] is missing from the body. *)
Lemma process_Throw (LocalTZA : Z) (data : Data) (updatedAt : string) :
  (exists e, process LocalTZA data updatedAt = Throw e) <->
  current data = None \/ hourly data = None.
Proof.
  unfold process.
  destruct (current data) as [cur |]; cbn [member obind].
  - destruct (hourly data) as [hours |]; cbn [member obind].
    + rewrite findCalmStart_firstCalmWindow. cbn [obind].
      split; [intros [e He]; discriminate | intros [H | H]; discriminate].
    + split; [auto | intros _; eexists; reflexivity].
  - split; [auto | intros _; eexists; reflexivity].
Qed.

Section HandlerFacts.

Variable LocalTZA : Z.
Variable formatCentralTime : Date -> string.

(** The [try] block makes the request first and responds last: when it
    throws, nothing has been sent. *)
Lemma tryBlock_cases (env : Env) (u : string) (w : World) :
  let w1 := mkWorld (requests w ++ [u]) (sent w) (console w) in
  tryBlock LocalTZA formatCentralTime env u w =
  match network env u with
  | None => (Throw (TypeError "fetch failed"), w1)
  | Some response =>
    match body response with
    | None => (Throw (SyntaxError "Unexpected token in JSON"), w1)
    | Some data =>
      match process LocalTZA data (formatCentralTime (now env)) with
      | Throw e => (Throw e, w1)
      | Return output =>
        (Return tt,
         mkWorld (requests w ++ [u])
                 (sent w ++ [mkHttpResponse 200 (Payload output)])
                 (console w))
      end
    end
  end.
Proof.
  cbn zeta. unfold tryBlock, bind, fetch, response_json, lift, res_status_json.
  destruct (network env u) as [response |]; [| reflexivity].
  destruct (body response) as [data |]; [| reflexivity].
  cbn [requests sent console].
  destruct (process LocalTZA data (formatCentralTime (now env)));
    reflexivity.
Qed.

Lemma tryBlock_Throw (env : Env) (u : string) (w w1 : World) (e : Exn) :
  tryBlock LocalTZA formatCentralTime env u w = (Throw e, w1) ->
  w1 = mkWorld (requests w ++ [u]) (sent w) (console w).
Proof.
  rewrite tryBlock_cases. cbn zeta.
  destruct (network env u) as [response |]; [| now intros [= _ <-]].
  destruct (body response) as [data |]; [| now intros [= _ <-]].
  destruct (process LocalTZA data (formatCentralTime (now env)));
    [discriminate | now intros [= _ <-]].
Qed.

End HandlerFacts.

(** C8. When the API key is not set (or is empty) the handler answers 500
    with the body [{ error: "Missing API Key" }] and does nothing else: no
    request is made and nothing is logged. *)
Theorem handler_missing_api_key (LocalTZA : Z)
    (formatCentralTime : Date -> string) (env : Env) (w : World) :
  OPEN_WEATHER_MAP_API_KEY env = None \/
  OPEN_WEATHER_MAP_API_KEY env = Some ""%string ->
  handler LocalTZA formatCentralTime env w =
  (Return tt,
   mkWorld (requests w)
           (sent w ++ [mkHttpResponse 500 (ErrorBody "Missing API Key")])
           (console w)) /\
  requests (snd (handler LocalTZA formatCentralTime env w)) = requests w.
Proof.
  intros Hkey. unfold handler.
  assert (Hnot : not_ (OPEN_WEATHER_MAP_API_KEY env) = true)
    by (destruct Hkey as [-> | ->]; reflexivity).
  rewrite Hnot. split; reflexivity.
Qed.

(** C9. With a key in place the handler makes one request.  Whenever the
    [try] block throws, be it in [fetch], in [response.json()] or while the
    body is processed, nothing has been sent before and the handler logs the
    exception and answers 500 with the body
    [{ error: "Failed to fetch weather data" }].  In every case the handler
    sends exactly one response: one of the two 500 answers, or 200 with the
    complete payload. *)
Theorem handler_failure_is_500 (LocalTZA : Z)
    (formatCentralTime : Date -> string) (env : Env) (w : World) :
  let key := OPEN_WEATHER_MAP_API_KEY env in
  let run := handler LocalTZA formatCentralTime env w in
  (not_ key = false ->
   forall (e : Exn) (w1 : World),
     tryBlock LocalTZA formatCentralTime env (url key) w = (Throw e, w1) ->
     sent w1 = sent w /\
     run =
     (Return tt,
      mkWorld (requests w ++ [url key]) (sent w ++ [fetchFailed])
              (console w ++ [("Error fetching weather data:"%string, e)]))) /\
  (not_ key = false ->
   network env (url key) = None \/
   (exists response,
      network env (url key) = Some response /\
      (body response = None \/
       exists data,
         body response = Some data /\
         (current data = None \/ hourly data = None))) ->
   fst run = Return tt /\ sent (snd run) = sent w ++ [fetchFailed]) /\
  (exists response : HttpResponse,
     fst run = Return tt /\
     sent (snd run) = sent w ++ [response] /\
     (response = missingKey \/
      response = fetchFailed \/
      exists (data : Data) (output : Out.Output),
        network env (url key) = Some (mkFetchResponse (Some data)) /\
        process LocalTZA data (formatCentralTime (now env)) = Return output /\
        response = mkHttpResponse 200 (Payload output))).
Proof.
  cbn zeta. unfold handler.
  destruct (not_ (OPEN_WEATHER_MAP_API_KEY env)) eqn:Hkey.
  { split; [discriminate |]. split; [discriminate |].
    exists missingKey. cbn [fst snd sent res_status_json]. auto. }
  unfold tryCatch. rewrite tryBlock_cases. cbn zeta.
  set (u := url (OPEN_WEATHER_MAP_API_KEY env)).
  split; [| split].
  - intros _ e w1.
    destruct (network env u) as [response |].
    2:{ intros [= <- <-]. split; reflexivity. }
    destruct (body response) as [data |].
    2:{ intros [= <- <-]. split; reflexivity. }
    destruct (process LocalTZA data (formatCentralTime (now env)));
      [discriminate |].
    intros [= <- <-]. split; reflexivity.
  - intros _ [Hnet | (response & Hnet & Hbody)]; rewrite Hnet.
    + split; reflexivity.
    + destruct Hbody as [-> | (data & -> & Hdata)]; [split; reflexivity |].
      apply (process_Throw LocalTZA data (formatCentralTime (now env)))
        in Hdata.
      destruct Hdata as [e ->]. split; reflexivity.
  - destruct (network env u) as [[[data |]] |]; cbn [body].
    + destruct (process LocalTZA data (formatCentralTime (now env)))
        as [output | e] eqn:Hp.
      * exists (mkHttpResponse 200 (Payload output)).
        cbn [fst snd sent]. split; [reflexivity |]. split; [reflexivity |].
        right. right. exists data, output. auto.
      * exists fetchFailed. cbn [fst snd sent]. auto.
    + exists fetchFailed. cbn [fst snd sent]. auto.
    + exists fetchFailed. cbn [fst snd sent]. auto.
Qed.

(** ** The properties on the sample inputs *)

(** Comparisons of rational constants, by computation. *)
Ltac qconst :=
  repeat match goal with
         | |- _ /\ _ => split
         end;
  vm_compute; (reflexivity || discriminate).

(** Testable property 6: the calm stretch at indices 10 to 17 is found. *)
Example calmFrom10_found :
  findCalmStart 0 0 calmFrom10 = Return (Some 36000).
Proof. vm_compute. reflexivity. Qed.

(** Testable property 7: a calm stretch that starts at 10pm is not
    reported. *)
Example calmFrom22_not_reported :
  findCalmStart 0 0 calmFrom22 = Return None.
Proof. vm_compute. reflexivity. Qed.

(** Nine calm hours from 7am: the run from 7am fails the window and is
    dropped as a whole, so the eight calm hours from 8am are not reported,
    although they are when the forecast starts there. *)
Example calmFrom7_not_rescanned :
  findCalmStart 0 0 calmFrom7 = Return None /\
  findCalmStart 0 0 (tl calmFrom7) = Return (Some 28800).
Proof. split; vm_compute; reflexivity. Qed.

Example process_sampleData :
  process 0 sampleData "3:07 PM" = Return sampleOutput.
Proof. vm_compute. reflexivity. Qed.

(** With a key and an answer from upstream: one request, one 200. *)
Example handler_online :
  handler 0 (fun _ => "3:07 PM"%string) envOnline emptyWorld =
  (Return tt,
   mkWorld [url (Some "k"%string)]
           [mkHttpResponse 200 (Payload sampleOutput)] []).
Proof. vm_compute. reflexivity. Qed.

(** A body without [current], as sent with an error status. *)
Example handler_error_body :
  sent (snd (handler 0 (fun _ => "3:07 PM"%string)
               (mkEnv (Some "k"%string)
                      (fun _ => Some (mkFetchResponse
                                        (Some (mkData None None 0))))
                      (newDate 0))
               emptyWorld)) =
  [fetchFailed].
Proof. vm_compute. reflexivity. Qed.

Lemma findCalmStart_policy_witness :
  findCalmStart 0 0 calmFrom10 = Return (Some 36000) /\
  (exists (i : nat) (first : HourData),
     nth_error (firstn 36 calmFrom10) i = Some first /\ dt first = 36000 /\
     calmRun (skipn i (firstn 36 calmFrom10)) = true /\
     8 <= localHour 0 0 first < 21 /\ localHour 0 0 first <> 22) /\
  findCalmStart 0 0 calmFrom22 =
  Return (firstCalmWindow 0 0 (skipn (0 + 8) (firstn 36 calmFrom22))).
Proof.
  split; [vm_compute; reflexivity |]. split.
  - apply (proj1 (proj2 (proj2 (findCalmStart_policy 0 0 calmFrom10)))).
    vm_compute. reflexivity.
  - apply (proj1 (proj2 (proj2 (proj2 (findCalmStart_policy 0 0 calmFrom22))))
             0%nat (mkHourData (22 * 3600) 80 3)).
    + intros j Hj. inversion Hj.
    + vm_compute. reflexivity.
    + vm_compute. reflexivity.
Defined.

Lemma chart_series_shape_witness :
  let series :=
    Out.overall (buildChartData 0 0 (mkHourData 1234 72.5 9) calmFrom10) in
  List.length series = 4%nat /\
  timestamps series = [0; 3600000; 7200000; 10800000] /\
  ascending (timestamps series).
Proof.
  cbn zeta.
  pose proof (chart_series_shape 0 0 (mkHourData 1234 72.5 9) calmFrom10 _
                (or_introl eq_refl)) as (_ & Hlen & _ & _ & _ & Hasc & _).
  split; [apply Hlen; vm_compute; lia |].
  split; [vm_compute; reflexivity |].
  apply Hasc. vm_compute.
  repeat (constructor; try reflexivity).
Defined.

Lemma convertMphToBft_classes_witness :
  convertMphToBft 0.5 = 0 /\ convertMphToBft 2 = 1 /\
  convertMphToBft 5 = 2 /\ convertMphToBft 10 = 3 /\
  convertMphToBft 15 = 4 /\ convertMphToBft 20 = 5 /\
  convertMphToBft 25 = 6 /\ convertMphToBft 35 = 7 /\
  convertMphToBft 40 = 8 /\
  (convertMphToBft 50 = JsNum.Math_round (50 / 5) /\ 8 < convertMphToBft 50).
Proof.
  pose proof (convertMphToBft_classes 0.5) as (H0 & _).
  pose proof (convertMphToBft_classes 2) as (_ & H1 & _).
  pose proof (convertMphToBft_classes 5) as (_ & _ & H2 & _).
  pose proof (convertMphToBft_classes 10) as (_ & _ & _ & H3 & _).
  pose proof (convertMphToBft_classes 15) as (_ & _ & _ & _ & H4 & _).
  pose proof (convertMphToBft_classes 20) as (_ & _ & _ & _ & _ & H5 & _).
  pose proof (convertMphToBft_classes 25)
    as (_ & _ & _ & _ & _ & _ & H6 & _).
  pose proof (convertMphToBft_classes 35)
    as (_ & _ & _ & _ & _ & _ & _ & H7 & _).
  pose proof (convertMphToBft_classes 40)
    as (_ & _ & _ & _ & _ & _ & _ & _ & H8 & _).
  pose proof (convertMphToBft_classes 50)
    as (_ & _ & _ & _ & _ & _ & _ & _ & _ & H9).
  split; [apply H0; qconst |]. split; [apply H1; qconst |].
  split; [apply H2; qconst |]. split; [apply H3; qconst |].
  split; [apply H4; qconst |]. split; [apply H5; qconst |].
  split; [apply H6; qconst |]. split; [apply H7; qconst |].
  split; [apply H8; qconst |]. apply H9; qconst.
Defined.

Lemma getTempScore_bands_witness :
  getTempScore 80 = 5 /\ getTempScore 72 = 4 /\ getTempScore 88 = 4 /\
  getTempScore 67 = 3 /\ getTempScore 93 = 3 /\ getTempScore 62 = 2 /\
  getTempScore 98 = 2 /\ getTempScore 40 = 1 /\ getTempScore 110 = 1.
Proof.
  pose proof (proj1 getTempScore_bands) as H.
  pose proof (H 80%Q) as (H80 & _).
  pose proof (H 72%Q) as (_ & H72 & _).
  pose proof (H 88%Q) as (_ & H88 & _).
  pose proof (H 67%Q) as (_ & _ & H67 & _).
  pose proof (H 93%Q) as (_ & _ & H93 & _).
  pose proof (H 62%Q) as (_ & _ & _ & H62 & _).
  pose proof (H 98%Q) as (_ & _ & _ & H98 & _).
  pose proof (H 40%Q) as (_ & _ & _ & _ & H40 & _).
  pose proof (H 110%Q) as (_ & _ & _ & _ & H110 & _).
  split; [apply H80; qconst |]. split; [apply H72; left; qconst |].
  split; [apply H88; right; qconst |]. split; [apply H67; left; qconst |].
  split; [apply H93; right; qconst |]. split; [apply H62; left; qconst |].
  split; [apply H98; right; qconst |]. split; [apply H40; left; qconst |].
  apply H110; right; qconst.
Defined.

Lemma getWindScore_steps_witness :
  getWindScore 2 = 5 /\ getWindScore 3 = 3 /\ getWindScore 4 = 2 /\
  getWindScore 5 = 1.
Proof.
  pose proof (getWindScore_steps 2) as (H2 & _).
  pose proof (getWindScore_steps 3) as (_ & H3 & _).
  pose proof (getWindScore_steps 4) as (_ & _ & H4 & _).
  pose proof (getWindScore_steps 5) as (_ & _ & _ & H5 & _).
  split; [apply H2; reflexivity |]. split; [apply H3; reflexivity |].
  split; [apply H4; reflexivity |]. apply H5; reflexivity.
Defined.

Lemma overall_score_is_min_witness :
  process 0 sampleData "3:07 PM" = Return sampleOutput /\
  Out.overall_score (Out.current sampleOutput) =
  Z.min (Out.temp_score (Out.current sampleOutput))
        (Out.wind_score (Out.current sampleOutput)) /\
  exists w t : Out.Point,
    nth_error (Out.wind (Out.chart_data sampleOutput)) 1 = Some w /\
    nth_error (Out.temp (Out.chart_data sampleOutput)) 1 = Some t /\
    fst w = 3600000 /\ fst t = 3600000 /\
    1 = Z.min (snd t) (snd w) /\ 1 <= snd t /\ 1 <= snd w.
Proof.
  assert (Hp : process 0 sampleData "3:07 PM" = Return sampleOutput)
    by (vm_compute; reflexivity).
  pose proof (proj2 overall_score_is_min 0 sampleData "3:07 PM"%string
                sampleOutput Hp) as (Hcur & _ & _ & Hchart).
  split; [exact Hp |]. split; [exact Hcur |].
  apply (Hchart 1%nat (3600000, 1)). reflexivity.
Defined.

Lemma calm_period_text_witness :
  process 0 sampleData "3:07 PM" = Return sampleOutput /\
  Out.calm_period sampleOutput = format12h 10 0 /\
  Out.calm_period sampleOutput <> "--"%string.
Proof.
  assert (Hp : process 0 sampleData "3:07 PM" = Return sampleOutput)
    by (vm_compute; reflexivity).
  destruct (calm_period_text 0 sampleData "3:07 PM"%string sampleOutput Hp)
    as (hours & calmStart & Hhours & _ & Hstart & Hiff & Hformat).
  cbn [hourly sampleData] in Hhours. injection Hhours as <-.
  assert (Hs : calmStart = Some 36000)
    by (rewrite Hstart; vm_compute; reflexivity).
  split; [exact Hp |]. split.
  - exact (proj2 (proj2 (Hformat 36000 Hs)) eq_refl).
  - intros E. apply Hiff in E. rewrite Hs in E. discriminate E.
Defined.

Lemma handler_missing_api_key_witness :
  OPEN_WEATHER_MAP_API_KEY envNoKey = None /\
  handler 0 (fun _ => "3:07 PM"%string) envNoKey emptyWorld =
  (Return tt,
   mkWorld [] [mkHttpResponse 500 (ErrorBody "Missing API Key")] []).
Proof.
  split; [reflexivity |].
  apply (handler_missing_api_key 0 (fun _ => "3:07 PM"%string) envNoKey
           emptyWorld).
  left. reflexivity.
Defined.

Lemma handler_failure_is_500_witness :
  not_ (OPEN_WEATHER_MAP_API_KEY envOffline) = false /\
  network envOffline (url (OPEN_WEATHER_MAP_API_KEY envOffline)) = None /\
  fst (handler 0 (fun _ => "3:07 PM"%string) envOffline emptyWorld) =
  Return tt /\
  sent (snd (handler 0 (fun _ => "3:07 PM"%string) envOffline emptyWorld)) =
  [fetchFailed].
Proof.
  split; [reflexivity |]. split; [reflexivity |].
  apply (proj1 (proj2 (handler_failure_is_500 0 (fun _ => "3:07 PM"%string)
                         envOffline emptyWorld))).
  - reflexivity.
  - left. reflexivity.
Defined.

Lemma findCalmStart_from_index_0_witness :
  (8 <= List.length (skipn 10 calmFrom10))%nat /\
  forallb calm (firstn 8 (skipn 10 calmFrom10)) = true /\
  8 <= localHour 0 0 (mkHourData 36000 80 3) < 21 /\
  findCalmStart 0 0 (skipn 10 calmFrom10) = Return (Some 36000).
Proof.
  split; [vm_compute; lia |]. split; [vm_compute; reflexivity |].
  split; [vm_compute; split; discriminate || reflexivity |].
  apply (proj2 (findCalmStart_from_index_0 0 0 (mkHourData 36000 80 3)
                  (skipn 11 calmFrom10))).
  - vm_compute. lia.
  - vm_compute. reflexivity.
  - vm_compute. split; discriminate || reflexivity.
Defined.

(** * Further properties of the scoring functions *)

Lemma Math_round_from_46 (mph : Q) :
  (46 <= mph)%Q -> 8 < JsNum.Math_round (mph / 5).
Proof.
  intros H.
  assert (Hm : JsNum.Math_round (46 / 5) <= JsNum.Math_round (mph / 5))
    by (apply Math_round_mono, Qmult_le_compat_r; [exact H | discriminate]).
  change (JsNum.Math_round (46 / 5)) with 9 in Hm. lia.
Qed.

(** An hour counts as calm exactly when its wind stays below 8 mph. *)
Lemma convertMphToBft_lt_3 (mph : Q) :
  convertMphToBft mph < 3 <-> (mph < 8)%Q.
Proof.
  pose proof (Math_round_from_46 mph) as Hbig.
  unfold convertMphToBft. split; intros H; revert H; js_compare;
    intros; try lia; try lra.
  specialize (Hbig ltac:(lra)). lia.
Qed.

Lemma getTempScore_range (t : Q) : 1 <= getTempScore t <= 5.
Proof. unfold getTempScore. js_compare; lia. Qed.

Lemma getWindScore_values (c : Z) : In (getWindScore c) [1; 2; 3; 5].
Proof.
  unfold getWindScore.
  destruct (c <? 3), (c =? 3), (c =? 4); simpl; tauto.
Qed.

Lemma getWindScore_range (c : Z) : 1 <= getWindScore c <= 5.
Proof.
  unfold getWindScore. destruct (c <? 3), (c =? 3), (c =? 4); lia.
Qed.

(** X1. The wind-force class never decreases when the speed grows, and it
    is never negative: speeds below 1 mph, negative ones included, are
    class 0. *)
Theorem convertMphToBft_monotone (x y : Q) :
  (x <= y)%Q ->
  0 <= convertMphToBft x <= convertMphToBft y /\
  ((x < 1)%Q -> convertMphToBft x = 0).
Proof.
  intros Hxy.
  pose proof (Math_round_from_46 x) as Hx.
  pose proof (Math_round_from_46 y) as Hy.
  assert (Hm : JsNum.Math_round (x / 5) <= JsNum.Math_round (y / 5))
    by (apply Math_round_mono, Qmult_le_compat_r; [exact Hxy | discriminate]).
  unfold convertMphToBft. js_compare;
    try specialize (Hx ltac:(lra)); try specialize (Hy ltac:(lra));
    (split; [lia | intros; try reflexivity; lra]).
Qed.

Lemma wind_score_cases (v : Q) :
  ((v < 8)%Q /\ getWindScore (convertMphToBft v) = 5) \/
  ((8 <= v < 13)%Q /\ getWindScore (convertMphToBft v) = 3) \/
  ((13 <= v < 18)%Q /\ getWindScore (convertMphToBft v) = 2) \/
  ((18 <= v)%Q /\ getWindScore (convertMphToBft v) = 1).
Proof.
  pose proof (Math_round_from_46 v) as Hbig.
  unfold convertMphToBft. js_compare;
    try (left; split; [lra | reflexivity]);
    try (right; left; split; [lra | reflexivity]);
    try (right; right; left; split; [lra | reflexivity]);
    try (right; right; right; split; [lra | reflexivity]).
  specialize (Hbig ltac:(lra)). right; right; right. split; [lra |].
  unfold getWindScore.
  destruct (Z.ltb_spec (JsNum.Math_round (v / 5)) 3),
    (Z.eqb_spec (JsNum.Math_round (v / 5)) 3),
    (Z.eqb_spec (JsNum.Math_round (v / 5)) 4); lia.
Qed.

(** X2. The wind score as a function of the speed: 5 below 8 mph, 3 from 8
    to below 13 mph, 2 from 13 to below 18 mph and 1 from 18 mph on, the
    uncapped classes above 8 included; so the wind score never grows with
    the speed. *)
Theorem wind_score_of_speed (mph : Q) :
  let score := getWindScore (convertMphToBft mph) in
  (score = 5 <-> (mph < 8)%Q) /\
  (score = 3 <-> (8 <= mph < 13)%Q) /\
  (score = 2 <-> (13 <= mph < 18)%Q) /\
  (score = 1 <-> (18 <= mph)%Q) /\
  (forall faster : Q,
     (mph <= faster)%Q -> getWindScore (convertMphToBft faster) <= score).
Proof.
  cbn zeta.
  do 4 (split;
        [split; intros H;
         destruct (wind_score_cases mph)
           as [[? ?] | [[? ?] | [[? ?] | [? ?]]]];
         solve [lra | lia] |]).
  intros faster Hle.
  destruct (wind_score_cases mph) as [[? ->] | [[? ->] | [[? ->] | [? ->]]]];
    destruct (wind_score_cases faster)
      as [[? ->] | [[? ->] | [[? ->] | [? ->]]]];
    try lia; lra.
Qed.

(** X3. The temperature score is symmetric about 80 degrees: [t] and
    [160 - t] score the same. *)
Theorem getTempScore_symmetric (t : Q) :
  getTempScore (160 - t) = getTempScore t.
Proof. unfold getTempScore. js_compare; reflexivity. Qed.

(** X4. The temperature score has a single peak: it never drops while the
    temperature rises to 80 degrees and never rises beyond. *)
Theorem getTempScore_unimodal (x y : Q) :
  (x <= y)%Q ->
  ((y <= 80)%Q -> getTempScore x <= getTempScore y) /\
  ((80 <= x)%Q -> getTempScore y <= getTempScore x).
Proof.
  intros Hxy. unfold getTempScore. split; intros H; js_compare; lia.
Qed.

(** Two temperatures no more than 5 degrees apart differ by at most one
    step of the score. *)
Lemma getTempScore_near (x y : Q) :
  (x <= y <= x + 5)%Q ->
  - 1 <= getTempScore y - getTempScore x <= 1.
Proof.
  intros [Hxy Hyx]. unfold getTempScore. js_compare; lia.
Qed.

Lemma getTempScore_5 (t : Q) : getTempScore t = 5 <-> (75 <= t <= 85)%Q.
Proof.
  unfold getTempScore. split; intros H; revert H; js_compare; intros;
    try lia; try lra; reflexivity.
Qed.

Lemma getTempScore_1 (t : Q) :
  getTempScore t = 1 <-> (t < 60)%Q \/ (100 < t)%Q.
Proof.
  unfold getTempScore. split; [intros H | intros [H | H]]; revert H;
    js_compare;
    intros; try lia; try lra; try reflexivity;
    solve [left; lra | right; lra].
Qed.

(** X5. The overall score in terms of the measurements: it lies between 1
    and 5; it is 5 exactly when the temperature is within 75 to 85 degrees
    and the wind below 8 mph; it is 1 exactly when the temperature is below
    60 or above 100 degrees or the wind is 18 mph or more. *)
Theorem overall_score_extremes (t mph : Q) :
  let score := getOverallScore t (convertMphToBft mph) in
  1 <= score <= 5 /\
  (score = 5 <-> (75 <= t <= 85)%Q /\ (mph < 8)%Q) /\
  (score = 1 <-> (t < 60)%Q \/ (100 < t)%Q \/ (18 <= mph)%Q).
Proof.
  cbn zeta. rewrite getOverallScore_min.
  pose proof (getTempScore_range t) as Ht.
  pose proof (getTempScore_5 t) as H5.
  pose proof (getTempScore_1 t) as H1.
  destruct (wind_score_cases mph) as [[Hw ->] | [[Hw ->] | [[Hw ->] | [Hw ->]]]].
  - split; [lia |]. split.
    + split; [intros H; split; [apply H5; lia | exact Hw] |
              intros [H _]; apply H5 in H; lia].
    + split; [intros H; assert (Hs : getTempScore t = 1) by lia;
              apply H1 in Hs; tauto |
              intros [H | [H | H]]; [| | lra];
              assert (Hs : getTempScore t = 1) by (apply H1; tauto); lia].
  - split; [lia |]. split.
    + split; [lia | intros [_ H]; lra].
    + split; [intros H; assert (Hs : getTempScore t = 1) by lia;
              apply H1 in Hs; tauto |
              intros [H | [H | H]]; [| | lra];
              assert (Hs : getTempScore t = 1) by (apply H1; tauto); lia].
  - split; [lia |]. split.
    + split; [lia | intros [_ H]; lra].
    + split; [intros H; assert (Hs : getTempScore t = 1) by lia;
              apply H1 in Hs; tauto |
              intros [H | [H | H]]; [| | lra];
              assert (Hs : getTempScore t = 1) by (apply H1; tauto); lia].
  - split; [lia |]. split.
    + split; [lia | intros [_ H]; lra].
    + split; [intros _; right; right; exact Hw | intros _; lia].
Qed.

(** * Further properties of the payload *)

Lemma Forall_map_points {P : Out.Point -> Prop} (f : HourData -> Out.Point)
    (hours : list HourData) :
  (forall h, P (f h)) -> Forall P (map f hours).
Proof.
  intros H. induction hours as [| h hours IH]; simpl; constructor; auto.
Qed.

(** X6. Every score of a payload is in range: the overall and temperature
    scores of the current conditions and of every chart point lie between 1
    and 5, the wind scores are among 1, 2, 3 and 5, and the wind-force
    class is not negative. *)
Theorem payload_scores_in_range (LocalTZA : Z) (data : Data)
    (updatedAt : string) (output : Out.Output) :
  process LocalTZA data updatedAt = Return output ->
  let cur := Out.current output in
  let chart := Out.chart_data output in
  1 <= Out.overall_score cur <= 5 /\
  1 <= Out.temp_score cur <= 5 /\
  In (Out.wind_score cur) [1; 2; 3; 5] /\
  0 <= Out.wind_speed_bft cur /\
  Forall (fun p => 1 <= snd p <= 5) (Out.overall chart) /\
  Forall (fun p => In (snd p) [1; 2; 3; 5]) (Out.wind chart) /\
  Forall (fun p => 1 <= snd p <= 5) (Out.temp chart).
Proof.
  intros H. apply process_Return in H.
  destruct H as (cur & hours & calmStart & _ & _ & _ & ->).
  cbn zeta.
  cbn [Out.current Out.chart_data Out.overall_score Out.temp_score
       Out.wind_score Out.wind_speed_bft].
  rewrite buildChartData_points. cbn zeta. cbn [Out.overall Out.wind Out.temp].
  assert (Hoverall : forall t c, 1 <= getOverallScore t c <= 5).
  { intros t c. rewrite getOverallScore_min.
    pose proof (getTempScore_range t). pose proof (getWindScore_range c).
    lia. }
  split; [apply Hoverall |].
  split; [apply getTempScore_range |].
  split; [apply getWindScore_values |].
  split.
  { pose proof (Math_round_from_46 (wind_speed cur)) as Hbig.
    unfold convertMphToBft. js_compare; try lia.
    specialize (Hbig ltac:(lra)). lia. }
  split; [| split]; constructor;
    try (apply Forall_map_points; intros h;
         cbn [overallPoint windPoint tempPoint snd]);
    cbn [snd];
    auto using getTempScore_range, getWindScore_values.
Qed.

(** X7. The fields of a payload agree with each other: the wind-force class
    is the class of the speed shown, the wind score is the score of that
    class (5 exactly when the speed shown is below 8 mph), and the first
    point of each chart series carries the score of the current conditions,
    the three of them at one timestamp. *)
Theorem payload_consistent (LocalTZA : Z) (data : Data)
    (updatedAt : string) (output : Out.Output) :
  process LocalTZA data updatedAt = Return output ->
  let cur := Out.current output in
  let chart := Out.chart_data output in
  Out.wind_speed_bft cur = convertMphToBft (Out.wind_speed_mph cur) /\
  Out.wind_score cur = getWindScore (Out.wind_speed_bft cur) /\
  (Out.wind_score cur = 5 <-> (Out.wind_speed_mph cur < 8)%Q) /\
  Out.updated_at cur = updatedAt /\
  exists timestamp : Z,
    hd_error (Out.overall chart) = Some (timestamp, Out.overall_score cur) /\
    hd_error (Out.wind chart) = Some (timestamp, Out.wind_score cur) /\
    hd_error (Out.temp chart) = Some (timestamp, Out.temp_score cur).
Proof.
  intros H. apply process_Return in H.
  destruct H as (cur & hours & calmStart & _ & _ & _ & ->).
  cbn zeta.
  cbn [Out.current Out.chart_data Out.overall_score Out.temp_score
       Out.wind_score Out.wind_speed_bft Out.wind_speed_mph Out.updated_at].
  rewrite buildChartData_points. cbn zeta. cbn [Out.overall Out.wind Out.temp].
  split; [reflexivity |]. split; [reflexivity |].
  split.
  { destruct (wind_score_cases (wind_speed cur))
      as [[Hw ->] | [[Hw ->] | [[Hw ->] | [Hw ->]]]];
      split; intros H; solve [lia | lra | reflexivity]. }
  split; [reflexivity |].
  eexists. repeat split.
Qed.

(** X8. The temperature shown is the measured one rounded to the nearest
    integer, while the temperature score is computed from the measured one:
    the score of a payload and the score of the temperature it shows differ
    by at most 1. *)
Theorem temp_score_of_shown_temperature (LocalTZA : Z) (data : Data)
    (updatedAt : string) (output : Out.Output) :
  process LocalTZA data updatedAt = Return output ->
  let cur := Out.current output in
  - 1 <= Out.temp_score cur - getTempScore (inject_Z (Out.feels_like cur)) <= 1.
Proof.
  intros H. apply process_Return in H.
  destruct H as (cur & hours & calmStart & _ & _ & _ & ->).
  cbn zeta. cbn [Out.current Out.temp_score Out.feels_like].
  pose proof (Math_round_nearest (feels_like cur)) as [Hlo Hhi].
  destruct (Qlt_le_dec (inject_Z (JsNum.Math_round (feels_like cur)))
                       (feels_like cur)) as [Hlt | Hge].
  - pose proof (getTempScore_near
                  (inject_Z (JsNum.Math_round (feels_like cur)))
                  (feels_like cur) ltac:(split; lra)). lia.
  - pose proof (getTempScore_near (feels_like cur)
                  (inject_Z (JsNum.Math_round (feels_like cur)))
                  ltac:(split; lra)). lia.
Qed.

(** * Further properties of the calm-period search *)

(** X9. The calm period shown is either the placeholder "--" or a time of
    the day from 8:00am to 8:59pm. *)
Theorem calm_period_in_window (LocalTZA : Z) (data : Data)
    (updatedAt : string) (output : Out.Output) :
  process LocalTZA data updatedAt = Return output ->
  Out.calm_period output = "--"%string \/
  exists h m : Z,
    8 <= h < 21 /\ 0 <= m < 60 /\ Out.calm_period output = format12h h m.
Proof.
  intros H. apply process_Return in H.
  destruct H as (cur & hours & calmStart & _ & _ & Hfind & ->).
  cbn [Out.calm_period].
  destruct calmStart as [start |]; [right | left; reflexivity].
  rewrite findCalmStart_firstCalmWindow in Hfind.
  assert (Hstart : firstCalmWindow LocalTZA (timezone_offset data)
                     (firstn 36 hours) = Some start) by congruence.
  apply firstCalmWindow_sound in Hstart.
  destruct Hstart as (i & first & _ & <- & _ & Hwin).
  apply inWindow_iff in Hwin. unfold localHour in Hwin.
  cbn [calmPeriodText]. rewrite formatTime_format12h.
  eexists _, _. split; [exact Hwin |]. split; [| reflexivity].
  apply getMinutes_range.
Qed.

(** X10. A forecast of fewer than eight hours, the empty one included, never
    yields a calm period: the search returns [null] and the payload shows
    "--". *)
Theorem short_forecast_no_calm_period (LocalTZA : Z) (data : Data)
    (updatedAt : string) (output : Out.Output) (hours : list HourData) :
  hourly data = Some hours ->
  (List.length hours < 8)%nat ->
  findCalmStart LocalTZA (timezone_offset data) hours = Return None /\
  (process LocalTZA data updatedAt = Return output ->
   Out.calm_period output = "--"%string).
Proof.
  intros Hhours Hlen.
  assert (Hnone : findCalmStart LocalTZA (timezone_offset data) hours =
                  Return None).
  { rewrite findCalmStart_firstCalmWindow, firstCalmWindow_short;
      [reflexivity |].
    rewrite length_firstn. lia. }
  split; [exact Hnone |].
  intros H. apply process_Return in H.
  destruct H as (cur & hours' & calmStart & _ & Hhours' & Hfind & ->).
  rewrite Hhours in Hhours'. injection Hhours' as <-.
  rewrite Hnone in Hfind. injection Hfind as <-. reflexivity.
Qed.

(** X11. A reported calm period keeps its promise in miles per hour: the
    start is the [dt] of one of [hourly[0]], ..., [hourly[28]], and that
    entry and the seven after it all have a wind speed below 8 mph. *)
Theorem reported_period_is_calm (LocalTZA tz : Z) (hours : list HourData)
    (start : Z) :
  findCalmStart LocalTZA tz hours = Return (Some start) ->
  exists (i : nat) (first : HourData),
    (i <= 28)%nat /\ nth_error hours i = Some first /\ dt first = start /\
    forall k : nat,
      (k < 8)%nat ->
      exists hourData : HourData,
        nth_error hours (i + k) = Some hourData /\
        (wind_speed hourData < 8)%Q.
Proof.
  intros Hfind.
  rewrite findCalmStart_firstCalmWindow in Hfind.
  assert (Hstart : firstCalmWindow LocalTZA tz (firstn 36 hours) = Some start)
    by congruence.
  apply firstCalmWindow_sound in Hstart.
  destruct Hstart as (i & first & Hnth & Hdt & Hrun & _).
  unfold calmRun in Hrun. apply andb_true_iff in Hrun.
  destruct Hrun as [Hlen Hcalm]. apply Nat.leb_le in Hlen.
  rewrite length_skipn, length_firstn in Hlen.
  assert (Hin : forall j, (j < 36)%nat ->
                nth_error (firstn 36 hours) j = nth_error hours j).
  { intros j Hj. rewrite nth_error_firstn.
    destruct (Nat.ltb_spec j 36); [reflexivity | lia]. }
  exists i, first.
  split; [lia |]. split; [rewrite <- Hin by lia; exact Hnth |].
  split; [exact Hdt |].
  intros k Hk.
  destruct (nth_error (firstn 8 (skipn i (firstn 36 hours))) k)
    as [hourData |] eqn:Hk8.
  2:{ apply nth_error_None in Hk8.
      rewrite length_firstn, length_skipn, length_firstn in Hk8. lia. }
  exists hourData. split.
  - rewrite nth_error_firstn in Hk8.
    destruct (Nat.ltb_spec k 8); [| lia].
    rewrite nth_error_skipn, Hin in Hk8 by lia. exact Hk8.
  - apply nth_error_In in Hk8.
    rewrite forallb_forall in Hcalm. specialize (Hcalm hourData Hk8).
    unfold calm in Hcalm. apply Z.ltb_lt in Hcalm.
    apply convertMphToBft_lt_3. exact Hcalm.
Qed.

Lemma forallb_nth_error {A : Type} (f : A -> bool) (l : list A) :
  (forall j x, nth_error l j = Some x -> f x = true) -> forallb f l = true.
Proof.
  induction l as [| a l IH]; intros H; [reflexivity |].
  cbn [forallb]. rewrite (H 0%nat a eq_refl), IH; [reflexivity |].
  intros j x Hj. exact (H (S j) x Hj).
Qed.

Section CalmDay.

Variables LocalTZA tz : Z.
Variables day rest : list HourData.

Hypothesis day_calm : forallb calm day = true.
Hypothesis day_short : (List.length day <= 36)%nat.

Lemma horizon_nth_day (k : nat) :
  (k < List.length day)%nat ->
  nth_error (firstn 36 (day ++ rest)) k = nth_error day k.
Proof.
  intros Hk. rewrite nth_error_firstn.
  destruct (Nat.ltb_spec k 36); [| lia].
  apply nth_error_app1. exact Hk.
Qed.

Lemma calmRun_within_day (k : nat) :
  (k + 8 <= List.length day)%nat ->
  calmRun (skipn k (firstn 36 (day ++ rest))) = true.
Proof.
  intros Hk. unfold calmRun. apply andb_true_iff. split.
  - apply Nat.leb_le. rewrite length_skipn, length_firstn, length_app. lia.
  - apply forallb_nth_error. intros j x Hj.
    rewrite nth_error_firstn in Hj.
    destruct (Nat.ltb_spec j 8); [| discriminate].
    rewrite nth_error_skipn, horizon_nth_day in Hj by lia.
    apply nth_error_In in Hj.
    rewrite forallb_forall in day_calm. auto.
Qed.

(** Within the calm stretch the policy tests the hour at [k] and, when it
    fails, goes on at [k + 8]. *)
Lemma firstCalmWindow_within_day (k : nat) (first : HourData) :
  (k + 8 <= List.length day)%nat ->
  nth_error day k = Some first ->
  firstCalmWindow LocalTZA tz (skipn k (firstn 36 (day ++ rest))) =
  if inWindow LocalTZA tz first then Some (dt first)
  else firstCalmWindow LocalTZA tz (skipn (k + 8) (firstn 36 (day ++ rest))).
Proof.
  intros Hk Hnth.
  rewrite (firstCalmWindow_first_run LocalTZA tz
             (skipn k (firstn 36 (day ++ rest))) 0 first).
  - cbn [Nat.add]. rewrite skipn_skipn.
    replace (8 + k)%nat with (k + 8)%nat by lia. reflexivity.
  - intros j Hj. lia.
  - cbn [skipn]. apply calmRun_within_day. exact Hk.
  - rewrite nth_error_skipn, Nat.add_0_r, horizon_nth_day by lia.
    exact Hnth.
Qed.

End CalmDay.

(** Of three hours of the day eight hours apart, one lies from 8am to 9pm. *)
Lemma window_every_8_hours (q : Z) :
  8 <= q mod 24 < 21 \/ 8 <= (q + 8) mod 24 < 21 \/
  8 <= (q + 16) mod 24 < 21.
Proof.
  pose proof (Z.div_mod q 24 ltac:(lia)).
  pose proof (Z.mod_pos_bound q 24 ltac:(lia)).
  pose proof (Z.div_mod (q + 8) 24 ltac:(lia)).
  pose proof (Z.mod_pos_bound (q + 8) 24 ltac:(lia)).
  pose proof (Z.div_mod (q + 16) 24 ltac:(lia)).
  pose proof (Z.mod_pos_bound (q + 16) 24 ltac:(lia)).
  lia.
Qed.

Lemma localHour_hours_later (LocalTZA tz dt0 k : Z) (hourData : HourData) :
  dt hourData = dt0 + 3600 * k ->
  localHour LocalTZA tz hourData =
  (((dt0 + tz) * 1000 + LocalTZA) / msPerHour + k) mod 24.
Proof.
  intros Hdt. unfold localHour, getHours, LocalTime, HourFromTime.
  cbn [getTime]. rewrite Hdt.
  replace ((dt0 + 3600 * k + tz) * 1000 + LocalTZA)
    with ((dt0 + tz) * 1000 + LocalTZA + k * msPerHour)
    by (unfold msPerHour; lia).
  rewrite Z.div_add by (unfold msPerHour; lia). reflexivity.
Qed.

(** X12. A calm day is always found, the reset policy notwithstanding: when
    the forecast starts with 24 calm hours one hour apart, the search
    reports a start, and it is the first, the ninth or the seventeenth of
    these hours. *)
Theorem calm_day_is_found (LocalTZA tz dt0 : Z) (day rest : list HourData) :
  List.length day = 24%nat ->
  forallb calm day = true ->
  (forall (i : nat) (hourData : HourData),
     nth_error day i = Some hourData ->
     dt hourData = dt0 + 3600 * Z.of_nat i) ->
  exists start : Z,
    findCalmStart LocalTZA tz (day ++ rest) = Return (Some start) /\
    (start = dt0 \/ start = dt0 + 8 * 3600 \/ start = dt0 + 16 * 3600).
Proof.
  intros Hlen Hcalm Hdt.
  assert (Hex : forall k, (k < 24)%nat -> exists h, nth_error day k = Some h).
  { intros k Hk. destruct (nth_error day k) as [h |] eqn:E; [eauto |].
    apply nth_error_None in E. lia. }
  destruct (Hex 0%nat ltac:(lia)) as [h0 H0].
  destruct (Hex 8%nat ltac:(lia)) as [h8 H8].
  destruct (Hex 16%nat ltac:(lia)) as [h16 H16].
  pose proof (Hdt _ _ H0) as D0. pose proof (Hdt _ _ H8) as D8.
  pose proof (Hdt _ _ H16) as D16.
  pose proof (localHour_hours_later LocalTZA tz dt0 _ h0 D0) as L0.
  pose proof (localHour_hours_later LocalTZA tz dt0 _ h8 D8) as L8.
  pose proof (localHour_hours_later LocalTZA tz dt0 _ h16 D16) as L16.
  change (Z.of_nat 0) with 0 in *. change (Z.of_nat 8) with 8 in *.
  change (Z.of_nat 16) with 16 in *. rewrite Z.add_0_r in L0.
  rewrite findCalmStart_firstCalmWindow.
  change (firstn 36 (day ++ rest)) with (skipn 0 (firstn 36 (day ++ rest))).
  rewrite (firstCalmWindow_within_day LocalTZA tz day rest Hcalm
             ltac:(lia) 0 h0 ltac:(lia) H0).
  destruct (inWindow LocalTZA tz h0) eqn:W0.
  { exists (dt h0). split; [reflexivity | lia]. }
  cbn [Nat.add].
  rewrite (firstCalmWindow_within_day LocalTZA tz day rest Hcalm
             ltac:(lia) 8 h8 ltac:(lia) H8).
  destruct (inWindow LocalTZA tz h8) eqn:W8.
  { exists (dt h8). split; [reflexivity | lia]. }
  cbn [Nat.add].
  rewrite (firstCalmWindow_within_day LocalTZA tz day rest Hcalm
             ltac:(lia) 16 h16 ltac:(lia) H16).
  destruct (inWindow LocalTZA tz h16) eqn:W16.
  { exists (dt h16). split; [reflexivity | lia]. }
  exfalso.
  pose proof (window_every_8_hours
                (((dt0 + tz) * 1000 + LocalTZA) / msPerHour)) as Hw.
  rewrite <- L0, <- L8, <- L16 in Hw.
  rewrite <- !inWindow_iff in Hw. rewrite W0, W8, W16 in Hw.
  destruct Hw as [Hw | [Hw | Hw]]; discriminate.
Qed.

(** * Further properties of the time format *)

Lemma distinct_injective {A : Type} (f : A -> string) (l : list A) :
  distinct (map f l) = true ->
  forall x y, In x l -> In y l -> f x = f y -> x = y.
Proof.
  induction l as [| a l IH]; intros Hd x y Hx Hy Hf; [destruct Hx |].
  cbn [map distinct] in Hd. apply andb_true_iff in Hd.
  destruct Hd as [Hfresh Hd]. apply negb_true_iff in Hfresh.
  assert (Hnot : forall z, In z l -> f a <> f z).
  { intros z Hz E.
    assert (Hex : existsb (String.eqb (f a)) (map f l) = true).
    { apply existsb_exists. exists (f z). split.
      - apply in_map. exact Hz.
      - apply String.eqb_eq. exact E. }
    congruence. }
  destruct Hx as [<- | Hx], Hy as [<- | Hy].
  - reflexivity.
  - exfalso. exact (Hnot y Hy Hf).
  - exfalso. exact (Hnot x Hx (eq_sym Hf)).
  - exact (IH Hd x y Hx Hy Hf).
Qed.

Lemma In_clockTimes (h m : Z) :
  0 <= h < 24 -> 0 <= m < 60 -> In (h, m) clockTimes.
Proof.
  intros Hh Hm. unfold clockTimes. apply in_prod; apply in_map_iff.
  - exists (Z.to_nat h). split; [lia | apply in_seq; lia].
  - exists (Z.to_nat m). split; [lia | apply in_seq; lia].
Qed.

Lemma clock_strings_distinct :
  distinct (map (fun p => format12h (fst p) (snd p)) clockTimes) = true.
Proof. vm_compute. reflexivity. Qed.

(** X13. The time format loses nothing: two dates are rendered alike
    exactly when they have the same hour of the day and the same minute, so
    the text determines both. *)
Theorem formatTime_injective (LocalTZA : Z) (d1 d2 : Date) :
  formatTime LocalTZA d1 = formatTime LocalTZA d2 <->
  getHours LocalTZA d1 = getHours LocalTZA d2 /\
  getMinutes LocalTZA d1 = getMinutes LocalTZA d2.
Proof.
  rewrite !formatTime_format12h. split.
  - intros H.
    pose proof (distinct_injective
                  (fun p => format12h (fst p) (snd p)) clockTimes
                  clock_strings_distinct
                  (getHours LocalTZA d1, getMinutes LocalTZA d1)
                  (getHours LocalTZA d2, getMinutes LocalTZA d2)
                  (In_clockTimes _ _ (getHours_range LocalTZA d1)
                                     (getMinutes_range LocalTZA d1))
                  (In_clockTimes _ _ (getHours_range LocalTZA d2)
                                     (getMinutes_range LocalTZA d2))
                  H) as E.
    injection E as E1 E2. split; assumption.
  - intros [-> ->]. reflexivity.
Qed.

(** * Further properties of the handler *)

Section HandlerEffects.

Variable LocalTZA : Z.
Variable formatCentralTime : Date -> string.

(** What a run with a key does, case by case. *)
Lemma handler_with_key (env : Env) (w : World) :
  let key := OPEN_WEATHER_MAP_API_KEY env in
  let requested := requests w ++ [url key] in
  not_ key = false ->
  handler LocalTZA formatCentralTime env w =
  match network env (url key) with
  | None =>
    (Return tt,
     mkWorld requested (sent w ++ [fetchFailed])
       (console w ++
        [("Error fetching weather data:"%string, TypeError "fetch failed")]))
  | Some response =>
    match body response with
    | None =>
      (Return tt,
       mkWorld requested (sent w ++ [fetchFailed])
         (console w ++
          [("Error fetching weather data:"%string,
            SyntaxError "Unexpected token in JSON")]))
    | Some data =>
      match process LocalTZA data (formatCentralTime (now env)) with
      | Throw e =>
        (Return tt,
         mkWorld requested (sent w ++ [fetchFailed])
           (console w ++ [("Error fetching weather data:"%string, e)]))
      | Return output =>
        (Return tt,
         mkWorld requested (sent w ++ [mkHttpResponse 200 (Payload output)])
           (console w))
      end
    end
  end.
Proof.
  cbn zeta. intros Hkey. unfold handler. rewrite Hkey.
  unfold tryCatch. rewrite tryBlock_cases. cbn zeta.
  destruct (network env (url (OPEN_WEATHER_MAP_API_KEY env)))
    as [response |]; [| reflexivity].
  destruct (body response) as [data |]; [| reflexivity].
  destruct (process LocalTZA data (formatCentralTime (now env)));
    reflexivity.
Qed.

End HandlerEffects.

(** X14. With a key in place a run makes exactly one request, to the One
    Call endpoint for the fixed coordinates with the key appended as it is.
    It writes to the console exactly when it answers with the generic 500,
    one entry that carries the exception; a 200 leaves the console alone. *)
Theorem handler_request_and_log (LocalTZA : Z)
    (formatCentralTime : Date -> string) (env : Env) (w : World) :
  let key := OPEN_WEATHER_MAP_API_KEY env in
  let run := handler LocalTZA formatCentralTime env w in
  not_ key = false ->
  (exists k : string,
     key = Some k /\ k <> ""%string /\
     requests (snd run) =
     requests w ++
     [("https://api.openweathermap.org/data/3.0/onecall?lat=30.5773"
       ++ "&lon=-97.8803&exclude=minutely,daily,alerts&units=imperial&appid="
       ++ k)%string]) /\
  ((sent (snd run) = sent w ++ [fetchFailed] /\
    exists e : Exn,
      console (snd run) =
      console w ++ [("Error fetching weather data:"%string, e)]) \/
   (exists output : Out.Output,
      sent (snd run) = sent w ++ [mkHttpResponse 200 (Payload output)] /\
      console (snd run) = console w)).
Proof.
  cbn zeta. intros Hkey.
  rewrite (handler_with_key LocalTZA formatCentralTime env w Hkey).
  cbn zeta. split.
  - destruct (OPEN_WEATHER_MAP_API_KEY env) as [k |] eqn:Ek;
      [| discriminate].
    exists k. split; [reflexivity |]. split.
    + intros ->. discriminate.
    + destruct (network env (url (Some k))) as [[[data |]] |]; cbn [body];
        [destruct (process LocalTZA data (formatCentralTime (now env))) | |];
        reflexivity.
  - destruct (network env (url (OPEN_WEATHER_MAP_API_KEY env)))
      as [[[data |]] |]; cbn [body];
      [destruct (process LocalTZA data (formatCentralTime (now env)))
         as [output | e] | |]; cbn [snd sent console].
    + right. exists output. split; reflexivity.
    + left. split; [reflexivity | eexists; reflexivity].
    + left. split; [reflexivity | eexists; reflexivity].
    + left. split; [reflexivity | eexists; reflexivity].
Qed.


(** * Further properties of the chart *)

(** X16. Why [hourly[0]] can be left out: when [hourly[0]] is on the hour
    and is the hour of the current record, and the offsets add up to whole
    hours, the truncated timestamp of the current point is exactly the
    timestamp [hourly[0]] would have had, so the chart carries the
    timestamps of [hourly[0]], ..., [hourly[3]]. *)
Theorem current_point_replaces_hourly_0 (LocalTZA tz : Z)
    (cur first : HourData) (rest : list HourData) :
  dt first mod 3600 = 0 ->
  dt first <= dt cur < dt first + 3600 ->
  (tz * 1000 + LocalTZA) mod 3600000 = 0 ->
  let chart := buildChartData LocalTZA tz cur (first :: rest) in
  currentTimestamp LocalTZA tz cur = (dt first + tz) * 1000 /\
  timestamps (Out.overall chart) =
  map (fun hourData => (dt hourData + tz) * 1000) (firstn 4 (first :: rest)) /\
  timestamps (Out.wind chart) = timestamps (Out.overall chart) /\
  timestamps (Out.temp chart) = timestamps (Out.overall chart).
Proof.
  intros Hhour Hsame Hoff. cbn zeta.
  assert (Hts : currentTimestamp LocalTZA tz cur = (dt first + tz) * 1000).
  { rewrite currentTimestamp_floor. unfold hourTimestamp.
    pose proof (Z.div_mod (dt first) 3600 ltac:(lia)) as Ha.
    pose proof (Z.div_mod (tz * 1000 + LocalTZA) 3600000 ltac:(lia)) as Hb.
    rewrite Hhour in Ha. rewrite Hoff in Hb.
    assert (Hmod : ((dt cur + tz) * 1000 + LocalTZA) mod msPerHour =
                   1000 * (dt cur - dt first)).
    { symmetry.
      apply (Z.mod_unique _ _
               (dt first / 3600 + (tz * 1000 + LocalTZA) / 3600000));
        unfold msPerHour; lia. }
    rewrite Hmod. lia. }
  split; [exact Hts |].
  rewrite buildChartData_points. cbn zeta. cbn [Out.overall Out.wind Out.temp].
  unfold timestamps. cbn [map fst]. rewrite !map_map. cbn [fst].
  change (slice 1 4 (first :: rest)) with (firstn 3 rest).
  cbn [firstn map]. rewrite Hts.
  repeat split; reflexivity.
Qed.

(** * The further properties on the sample inputs *)

Example process_shortData :
  process 0 shortData "3:07 PM" = Return shortOutput.
Proof. vm_compute. reflexivity. Qed.

Lemma convertMphToBft_monotone_witness :
  0 <= convertMphToBft 2 <= convertMphToBft 50 /\
  convertMphToBft (-3) = 0.
Proof.
  split.
  - apply (convertMphToBft_monotone 2 50). qconst.
  - apply (convertMphToBft_monotone (-3) 0); qconst.
Defined.

Lemma getTempScore_unimodal_witness :
  getTempScore 70 <= getTempScore 78 /\ getTempScore 95 <= getTempScore 82.
Proof.
  split.
  - apply (proj1 (getTempScore_unimodal 70 78 ltac:(qconst))). qconst.
  - apply (proj2 (getTempScore_unimodal 82 95 ltac:(qconst))). qconst.
Defined.

Lemma payload_scores_in_range_witness :
  process 0 sampleData "3:07 PM" = Return sampleOutput /\
  1 <= Out.overall_score (Out.current sampleOutput) <= 5 /\
  Forall (fun p => In (snd p) [1; 2; 3; 5])
         (Out.wind (Out.chart_data sampleOutput)).
Proof.
  assert (Hp : process 0 sampleData "3:07 PM" = Return sampleOutput)
    by (vm_compute; reflexivity).
  pose proof (payload_scores_in_range 0 sampleData "3:07 PM"%string
                sampleOutput Hp) as (Ho & _ & _ & _ & _ & Hw & _).
  split; [exact Hp |]. split; [exact Ho | exact Hw].
Defined.

Lemma payload_consistent_witness :
  process 0 shortData "3:07 PM" = Return shortOutput /\
  (Out.wind_score (Out.current shortOutput) = 5 <->
   (Out.wind_speed_mph (Out.current shortOutput) < 8)%Q) /\
  exists timestamp : Z,
    hd_error (Out.overall (Out.chart_data shortOutput)) =
    Some (timestamp, Out.overall_score (Out.current shortOutput)) /\
    hd_error (Out.wind (Out.chart_data shortOutput)) =
    Some (timestamp, Out.wind_score (Out.current shortOutput)) /\
    hd_error (Out.temp (Out.chart_data shortOutput)) =
    Some (timestamp, Out.temp_score (Out.current shortOutput)).
Proof.
  assert (Hp : process 0 shortData "3:07 PM" = Return shortOutput)
    by (vm_compute; reflexivity).
  pose proof (payload_consistent 0 shortData "3:07 PM"%string shortOutput Hp)
    as (_ & _ & Hw & _ & Hhd).
  split; [exact Hp |]. split; [exact Hw | exact Hhd].
Defined.

(** Measured 74.6 degrees: shown as 75, scored 4, while 75 scores 5. *)
Lemma temp_score_of_shown_temperature_witness :
  process 0 shortData "3:07 PM" = Return shortOutput /\
  - 1 <= Out.temp_score (Out.current shortOutput)
         - getTempScore (inject_Z (Out.feels_like (Out.current shortOutput)))
  <= 1 /\
  Out.temp_score (Out.current shortOutput) = 4 /\
  getTempScore (inject_Z (Out.feels_like (Out.current shortOutput))) = 5.
Proof.
  assert (Hp : process 0 shortData "3:07 PM" = Return shortOutput)
    by (vm_compute; reflexivity).
  split; [exact Hp |]. split.
  - exact (temp_score_of_shown_temperature 0 shortData "3:07 PM"%string
             shortOutput Hp).
  - split; reflexivity.
Defined.

Lemma calm_period_in_window_witness :
  process 0 sampleData "3:07 PM" = Return sampleOutput /\
  (Out.calm_period sampleOutput = "--"%string \/
   exists h m : Z,
     8 <= h < 21 /\ 0 <= m < 60 /\
     Out.calm_period sampleOutput = format12h h m).
Proof.
  assert (Hp : process 0 sampleData "3:07 PM" = Return sampleOutput)
    by (vm_compute; reflexivity).
  split; [exact Hp |].
  exact (calm_period_in_window 0 sampleData "3:07 PM"%string sampleOutput Hp).
Defined.

Lemma short_forecast_no_calm_period_witness :
  (List.length (hoursFrom 0 80 (repeat 3%Q 3)) < 8)%nat /\
  findCalmStart 0 0 (hoursFrom 0 80 (repeat 3%Q 3)) = Return None /\
  Out.calm_period shortOutput = "--"%string.
Proof.
  assert (Hlen : (List.length (hoursFrom 0 80 (repeat 3%Q 3)) < 8)%nat)
    by (vm_compute; lia).
  pose proof (short_forecast_no_calm_period 0 shortData "3:07 PM"%string
                shortOutput (hoursFrom 0 80 (repeat 3%Q 3)) eq_refl Hlen)
    as [Hnone Htext].
  split; [exact Hlen |]. split; [exact Hnone |].
  apply Htext. vm_compute. reflexivity.
Defined.

Lemma reported_period_is_calm_witness :
  findCalmStart 0 0 calmFrom10 = Return (Some 36000) /\
  exists (i : nat) (first : HourData),
    (i <= 28)%nat /\ nth_error calmFrom10 i = Some first /\
    dt first = 36000 /\
    forall k : nat,
      (k < 8)%nat ->
      exists hourData : HourData,
        nth_error calmFrom10 (i + k) = Some hourData /\
        (wind_speed hourData < 8)%Q.
Proof.
  assert (Hf : findCalmStart 0 0 calmFrom10 = Return (Some 36000))
    by (vm_compute; reflexivity).
  split; [exact Hf |].
  exact (reported_period_is_calm 0 0 calmFrom10 36000 Hf).
Defined.

Lemma calm_day_is_found_witness :
  List.length calmDay = 24%nat /\
  forallb calm calmDay = true /\
  exists start : Z,
    findCalmStart 0 0 (calmDay ++ windyRest) = Return (Some start) /\
    (start = 22 * 3600 \/ start = 22 * 3600 + 8 * 3600 \/
     start = 22 * 3600 + 16 * 3600).
Proof.
  split; [reflexivity |]. split; [vm_compute; reflexivity |].
  apply (calm_day_is_found 0 0 (22 * 3600) calmDay windyRest).
  - reflexivity.
  - vm_compute. reflexivity.
  - intros i hourData.
    do 24 (destruct i as [| i]; [intros [= <-]; reflexivity |]).
    destruct i; discriminate.
Defined.

Lemma handler_request_and_log_witness :
  let run := handler 0 (fun _ => "3:07 PM"%string) envOffline emptyWorld in
  not_ (OPEN_WEATHER_MAP_API_KEY envOffline) = false /\
  (exists k : string,
     OPEN_WEATHER_MAP_API_KEY envOffline = Some k /\ k <> ""%string /\
     requests (snd run) =
     requests emptyWorld ++
     [("https://api.openweathermap.org/data/3.0/onecall?lat=30.5773"
       ++ "&lon=-97.8803&exclude=minutely,daily,alerts&units=imperial&appid="
       ++ k)%string]) /\
  ((sent (snd run) = sent emptyWorld ++ [fetchFailed] /\
    exists e : Exn,
      console (snd run) =
      console emptyWorld ++ [("Error fetching weather data:"%string, e)]) \/
   (exists output : Out.Output,
      sent (snd run) =
      sent emptyWorld ++ [mkHttpResponse 200 (Payload output)] /\
      console (snd run) = console emptyWorld)).
Proof.
  cbn zeta. split; [reflexivity |].
  exact (handler_request_and_log 0 (fun _ => "3:07 PM"%string) envOffline
           emptyWorld eq_refl).
Defined.

Lemma current_point_replaces_hourly_0_witness :
  currentTimestamp 0 0 (mkHourData 1234 72.5 9) = 0 /\
  timestamps
    (Out.overall (buildChartData 0 0 (mkHourData 1234 72.5 9) calmFrom10)) =
  [0; 3600000; 7200000; 10800000].
Proof.
  pose proof (current_point_replaces_hourly_0 0 0 (mkHourData 1234 72.5 9)
                (mkHourData 0 80 20) (tl calmFrom10)
                eq_refl ltac:(vm_compute; split; discriminate || reflexivity)
                eq_refl) as (Hts & Hchart & _).
  split; [exact Hts | exact Hchart].
Defined.

(** * Stability of the search *)

Lemma findCalmStart_scan (LocalTZA tz : Z) (hours : list HourData) :
  findCalmStart LocalTZA tz hours = scan LocalTZA tz (firstn 36 hours) None 0.
Proof.
  unfold findCalmStart.
  rewrite calmLoop_scan by (unfold forecastLimit; lia).
  cbn [skipn]. rewrite firstn_forecastLimit. reflexivity.
Qed.

(** The loop stops at the first success, so hours that follow do not
    matter. *)
Lemma scan_found_app (LocalTZA tz : Z) (l more : list HourData)
    (calmCandidate : option HourData) (calmCount start : Z) :
  scan LocalTZA tz l calmCandidate calmCount = Return (Some start) ->
  scan LocalTZA tz (l ++ more) calmCandidate calmCount = Return (Some start).
Proof.
  revert calmCandidate calmCount.
  induction l as [| x l IH]; intros calmCandidate calmCount; [discriminate |].
  cbn [app scan].
  destruct (convertMphToBft (wind_speed x) <? 3); [| apply IH].
  destruct (calmCount + 1 =? 8); [| apply IH].
  destruct (if calmCount =? 0 then Some x else calmCandidate) as [c |];
    cbn [member obind]; [| discriminate].
  destruct (inWindow LocalTZA tz c); [auto | apply IH].
Qed.

(** X17. A reported start is final: forecast hours appended to the sequence
    later never change it. *)
Theorem found_start_is_stable (LocalTZA tz : Z) (hours more : list HourData)
    (start : Z) :
  findCalmStart LocalTZA tz hours = Return (Some start) ->
  findCalmStart LocalTZA tz (hours ++ more) = Return (Some start).
Proof.
  rewrite !findCalmStart_scan, firstn_app. apply scan_found_app.
Qed.

Lemma found_start_is_stable_witness :
  findCalmStart 0 0 (firstn 20 calmFrom10) = Return (Some 36000) /\
  findCalmStart 0 0 (firstn 20 calmFrom10 ++ calmDay) = Return (Some 36000).
Proof.
  assert (Hf : findCalmStart 0 0 (firstn 20 calmFrom10) = Return (Some 36000))
    by (vm_compute; reflexivity).
  split; [exact Hf |].
  exact (found_start_is_stable 0 0 (firstn 20 calmFrom10) calmDay 36000 Hf).
Defined.
